(** * Realtime synchronisation of make-a-task: store handlers and server

    A shallow embedding of the two halves of the realtime subsystem:

    - [Client]: the zustand store of the browser client (the [AppState]
      shape, its setters, the listeners [init_socket] registers and the
      five socket event handlers);
    - [Backend]: the express/socket.io server of [backend/server.js] (the
      task endpoints that change status, comments, attachments and the
      task record; the socket.io connection handler and the broadcast
      helpers).

    JavaScript values are modelled by their TypeScript types: a
    [string | null] is an [option string], an array is a [list], an
    object type is a record.  [===] on strings is [String.eqb]. *)

From Stdlib Require Import Ascii String List Bool Arith Lia.
From stdpp Require Import base list.
Import ListNotations.

#[local] Open Scope string_scope.
#[local] Open Scope list_scope.

(** ** JavaScript array helpers *)

(** [Array.prototype.findIndex]: the index of the first element that
    satisfies [p]; JavaScript's [-1] is [None]. *)
Fixpoint findIndex {A : Type} (p : A -> bool) (l : list A) : option nat :=
  match l with
  | [] => None
  | x :: l' => if p x then Some 0 else option_map S (findIndex p l')
  end.

(** [Array.prototype.includes] on an array of strings. *)
Fixpoint includes (l : list string) (x : string) : bool :=
  match l with
  | [] => false
  | y :: l' => String.eqb y x || includes l' x
  end.

(** ** JSON values: what travels in HTTP bodies and socket.io messages *)
#[local] Set Warnings "-register-all".
Inductive JValue :=
| JNull
| JBool (b : bool)
| JNum (n : nat)
| JStr (s : string)
| JArr (items : list JValue)
| JObj (fields : list (string * JValue)).

(** Property access [o.k] on an object; [None] is [undefined]. *)
Fixpoint jfield (fields : list (string * JValue)) (k : string)
  : option JValue :=
  match fields with
  | [] => None
  | (k', v) :: rest => if String.eqb k' k then Some v else jfield rest k
  end.

(** [Object.keys]. *)
Definition jkeys (v : JValue) : list string :=
  match v with
  | JObj fields => map fst fields
  | _ => []
  end.

(** * The client store *)
Module Client.

(** ** Types of the state variables *)

Record UserProfile := {
  up_user_id : string;
  up_name : string;
  up_email : string;
  up_avatar_url : string;
  up_role : string;
  up_created_at : string;
  up_updated_at : string
}.

Record Workspace := {
  ws_workspace_id : string;
  ws_name : string;
  ws_owner_id : string;
  ws_created_at : string;
  ws_updated_at : string;
  ws_visibility : string
}.

(** [comment_task_id] is the extra [task_id] property of the objects that
    arrive as [comment_created] payloads ([Comment & { task_id }]); the
    handler stores the payload object itself in the comment sequence, so
    the property stays on the stored object. *)
Record Comment := {
  comment_id : string;
  author_id : string;
  content : string;
  comment_created_at : string;
  comment_updated_at : string;
  mentions : list string;
  user_name : option string;
  comment_task_id : option string
}.

Record Attachment := {
  attachment_id : string;
  file_url : string;
  filename : string;
  attachment_created_at : string
}.

Record Activity := {
  activity_id : string;
  activity_user_id : string;
  action_type : string;
  activity_description : string;
  activity_timestamp : string
}.

Record Notification := {
  notification_id : string;
  notification_type : string;
  message : string;
  is_read : bool;
  notification_created_at : string
}.

Inductive Theme := light | dark.

Record UserPreferences := {
  theme : Theme;
  notifications_enabled : bool;
  language : string
}.

Record Task := {
  task_id : string;
  workspace_id : string;
  created_by : string;
  assigned_to : option string;
  title : string;
  description : option string;
  due_date : option string;
  priority : string;
  status : string;
  is_favorited : bool;
  created_at : string;
  updated_at : string;
  tags : list string;
  comments : list Comment;
  attachments : list Attachment;
  activity_log : list Activity
}.

(** The socket.io client object, as far as the store keeps it: the URL
    and the credential it was opened with. *)
Record Socket := {
  socket_url : string;
  socket_auth_token : string
}.

(** ** Store shape (the data part of [AppState]) *)

Record AppState := {
  auth_token : option string;
  current_user : option UserProfile;
  workspaces : list Workspace;
  selected_workspace : option Workspace;
  tasks : list Task;
  current_task : option Task;
  notifications : list Notification;
  user_preferences : UserPreferences;
  socket : option Socket;
  socket_connected : bool
}.

(** Initial state of the store. *)
Definition initial_state : AppState := {|
  auth_token := None;
  current_user := None;
  workspaces := [];
  selected_workspace := None;
  tasks := [];
  current_task := None;
  notifications := [];
  user_preferences :=
    {| theme := light; notifications_enabled := true; language := "en" |};
  socket := None;
  socket_connected := false
|}.

(** ** Setters: [set({ field: value })] merges one field into the state *)

Definition set_tasks (s : AppState) (ts : list Task) : AppState := {|
  auth_token := auth_token s;
  current_user := current_user s;
  workspaces := workspaces s;
  selected_workspace := selected_workspace s;
  tasks := ts;
  current_task := current_task s;
  notifications := notifications s;
  user_preferences := user_preferences s;
  socket := socket s;
  socket_connected := socket_connected s
|}.

Definition set_current_task (s : AppState) (t : option Task) : AppState := {|
  auth_token := auth_token s;
  current_user := current_user s;
  workspaces := workspaces s;
  selected_workspace := selected_workspace s;
  tasks := tasks s;
  current_task := t;
  notifications := notifications s;
  user_preferences := user_preferences s;
  socket := socket s;
  socket_connected := socket_connected s
|}.

Definition set_notifications (s : AppState) (ns : list Notification)
  : AppState := {|
  auth_token := auth_token s;
  current_user := current_user s;
  workspaces := workspaces s;
  selected_workspace := selected_workspace s;
  tasks := tasks s;
  current_task := current_task s;
  notifications := ns;
  user_preferences := user_preferences s;
  socket := socket s;
  socket_connected := socket_connected s
|}.

(** Object spreads of the handlers. *)

(** [{ ...task, status: st, updated_at: ts }] *)
Definition spread_status (t : Task) (st ts : string) : Task := {|
  task_id := task_id t;
  workspace_id := workspace_id t;
  created_by := created_by t;
  assigned_to := assigned_to t;
  title := title t;
  description := description t;
  due_date := due_date t;
  priority := priority t;
  status := st;
  is_favorited := is_favorited t;
  created_at := created_at t;
  updated_at := ts;
  tags := tags t;
  comments := comments t;
  attachments := attachments t;
  activity_log := activity_log t
|}.

(** [{ ...task }] followed by [task.comments = cs] *)
Definition spread_comments (t : Task) (cs : list Comment) : Task := {|
  task_id := task_id t;
  workspace_id := workspace_id t;
  created_by := created_by t;
  assigned_to := assigned_to t;
  title := title t;
  description := description t;
  due_date := due_date t;
  priority := priority t;
  status := status t;
  is_favorited := is_favorited t;
  created_at := created_at t;
  updated_at := updated_at t;
  tags := tags t;
  comments := cs;
  attachments := attachments t;
  activity_log := activity_log t
|}.

(** ** Payloads of the socket events, by the handlers' parameter types *)

(** [{ task_id: string; status: string; timestamp: string }] *)
Record StatusPayload := {
  sp_task_id : string;
  sp_status : string;
  sp_timestamp : string
}.

(** ** Handlers for WebSocket events *)

Definition handle_notification_update (s : AppState) (payload : Notification)
  : AppState :=
  let ns := notifications s in
  match findIndex
          (fun n => String.eqb (notification_id n) (notification_id payload))
          ns with
  | Some index => set_notifications s (<[index := payload]> ns)
  | None => set_notifications s (ns ++ [payload])
  end.

Definition handle_comment_created (s : AppState) (payload : Comment)
  : AppState :=
  match current_task s with
  | None => s
  | Some ct =>
      match comment_task_id payload with
      | Some tid =>
          if String.eqb (task_id ct) tid
          then set_current_task s
                 (Some (spread_comments ct (comments ct ++ [payload])))
          else s
      | None => s
      end
  end.

Definition handle_task_status_updated (s : AppState) (payload : StatusPayload)
  : AppState :=
  let ts := tasks s in
  let s1 :=
    match findIndex (fun t => String.eqb (task_id t) (sp_task_id payload)) ts
    with
    | Some index =>
        match ts !! index with
        | Some t =>
            set_tasks s
              (<[index := spread_status t (sp_status payload)
                            (sp_timestamp payload)]> ts)
        | None => s
        end
    | None => s
    end in
  match current_task s1 with
  | Some ct =>
      if String.eqb (task_id ct) (sp_task_id payload)
      then set_current_task s1
             (Some (spread_status ct (sp_status payload)
                      (sp_timestamp payload)))
      else s1
  | None => s1
  end.

(** The payload of [task_reorder] has type [any]; the body is empty. *)
Definition handle_task_reordered (s : AppState) (payload : JValue)
  : AppState := s.

Definition handle_activity_stream (s : AppState) (payload : Activity)
  : AppState := s.

(** ** Listener registration of [init_socket]

    The realtime events the store listens to, each with the payload type
    of its handler. *)
Inductive SocketEvent :=
| NotificationUpdate (payload : Notification)
| CommentCreated (payload : Comment)
| TaskStatusUpdated (payload : StatusPayload)
| TaskReorder (payload : JValue)
| ActivityStream (payload : Activity).

(** The event name each listener is registered under with [socket.on]. *)
Definition event_name (e : SocketEvent) : string :=
  match e with
  | NotificationUpdate _ => "notification_update"
  | CommentCreated _ => "comment_created"
  | TaskStatusUpdated _ => "task_status_updated"
  | TaskReorder _ => "task_reorder"
  | ActivityStream _ => "activity/stream"
  end.

(** All names [init_socket] calls [socket.on] with, in order. *)
Definition socket_listeners : list string :=
  [ "connect"; "disconnect"; "notification_update"; "comment_created";
    "task_status_updated"; "task_reorder"; "activity/stream" ].

(** The property names of the [task_status_updated] handler's payload
    type. *)
Definition status_payload_keys : list string :=
  [ "task_id"; "status"; "timestamp" ].

(** What the registered listener does when the event arrives. *)
Definition on_event (s : AppState) (e : SocketEvent) : AppState :=
  match e with
  | NotificationUpdate p => handle_notification_update s p
  | CommentCreated p => handle_comment_created s p
  | TaskStatusUpdated p => handle_task_status_updated s p
  | TaskReorder p => handle_task_reordered s p
  | ActivityStream p => handle_activity_stream s p
  end.

End Client.

(** * The server *)
Module Backend.

(** ** Data *)

(** The decoded JWT payload that [jwt.verify] yields and that the
    middleware stores in [req.user]. *)
Record User := {
  user_id : string;
  email : string;
  role : string;
  name : string
}.

(** Rows of the tables the modelled endpoints read and write, with the
    columns the queries of [server.js] name. *)
Record TaskRow := {
  t_id : string;
  t_workspace_id : string;
  t_created_by : string;
  t_assigned_to : option string;
  t_title : string;
  t_description : option string;
  t_due_date : option string;
  t_priority : string;
  t_status : string;
  t_created_at : string;
  t_updated_at : string
}.

Record WorkspaceUserRow := {
  wu_workspace_id : string;
  wu_user_id : string;
  wu_role : string
}.

Record WorkspaceRow := {
  w_id : string;
  w_name : string;
  w_owner_id : string
}.

Record ActivityRow := {
  a_task_id : string;
  a_user_id : string;
  a_action : string;
  a_description : string;
  a_timestamp : string
}.

Record CommentRow := {
  c_id : nat;
  c_task_id : string;
  c_user_id : string;
  c_content : string;
  c_mentions : list string;
  c_created_at : string;
  c_updated_at : string
}.

Record AttachmentRow := {
  at_task_id : string;
  at_file_url : string;
  at_added_by : string;
  at_added_at : string
}.

Record DB := {
  tasks : list TaskRow;
  task_tags : list (string * string);
  workspace_users : list WorkspaceUserRow;
  workspaces : list WorkspaceRow;
  task_activity : list ActivityRow;
  comments : list CommentRow;
  comments_id_seq : nat;
  task_attachments : list AttachmentRow
}.

(** A socket.io server-side socket: its id, [socket.data.user], and the
    rooms it is in.  socket.io puts every socket in the room named by its
    own id when it is created. *)
Record Socket := {
  sid : string;
  data_user : option User;
  rooms : list string
}.

(** One call of [emit]: the room addressed, the event name, the message. *)
Record Emission := {
  em_room : string;
  em_event : string;
  em_message : JValue
}.

(** One message put on the wire to one socket. *)
Record Delivery := {
  dl_sid : string;
  dl_event : string;
  dl_message : JValue
}.

(** The state of the server process: the database behind [pool], the
    sockets of the namespace ['/'] of [io], and the log of what [io] was
    asked to emit and what it sent to whom. *)
Record Server := {
  db : DB;
  sockets : list Socket;
  emitted : list Emission;
  delivered : list Delivery
}.

Definition with_db (st : Server) (d : DB) : Server :=
  {| db := d; sockets := sockets st;
     emitted := emitted st; delivered := delivered st |}.

Definition with_sockets (st : Server) (l : list Socket) : Server :=
  {| db := db st; sockets := l;
     emitted := emitted st; delivered := delivered st |}.

Definition empty_db : DB :=
  {| tasks := []; task_tags := []; workspace_users := []; workspaces := [];
     task_activity := []; comments := []; comments_id_seq := 0;
     task_attachments := [] |}.

(** The server right after [server.listen]. *)
Definition initial_server (d : DB) : Server :=
  {| db := d; sockets := []; emitted := []; delivered := [] |}.

(** An HTTP response: [res.status(code).json(body)]; [res.json] alone
    answers 200. *)
Record Response := {
  code : nat;
  body : JValue
}.

(** What [new Date().toISOString()], [uuidv4()] and the database's
    [CURRENT_TIMESTAMP] yield while one request is handled. *)
Record Env := {
  js_now : string;
  uuid : string;
  current_timestamp : string
}.

(** ** Handler computations

    An express handler runs against the server state.  It goes on
    ([Next]), has sent its response and returned ([Reply]), or has an
    exception propagating ([Throw]) until a [catch] takes it. *)
Inductive Step (A : Type) :=
| Next (a : A)
| Reply (r : Response)
| Throw (e : string).
Arguments Next {A} a.
Arguments Reply {A} r.
Arguments Throw {A} e.

Definition M (A : Type) : Type := Server -> Step A * Server.

Definition ret {A} (a : A) : M A := fun st => (Next a, st).

Definition bind {A B} (m : M A) (f : A -> M B) : M B :=
  fun st =>
    match m st with
    | (Next a, st') => f a st'
    | (Reply r, st') => (Reply r, st')
    | (Throw e, st') => (Throw e, st')
    end.

Notation "'let*' x ':=' m 'in' k" := (bind m (fun x => k))
  (at level 10, x name, m at level 100, k at level 200).
Notation "'await' m 'in' k" := (bind m (fun _ => k))
  (at level 10, m at level 100, k at level 200).

(** [return res.status(c).json(b)] *)
Definition reply {A} (c : nat) (b : JValue) : M A :=
  fun st => (Reply {| code := c; body := b |}, st).

Definition throw {A} (e : string) : M A := fun st => (Throw e, st).

(** [try { m } catch (err) { h err }] *)
Definition try_catch {A} (m : M A) (h : string -> M A) : M A :=
  fun st =>
    match m st with
    | (Throw e, st') => h e st'
    | other => other
    end.

(** [await queryDB(...)] for a statement that reads. *)
Definition query {A} (q : DB -> A) : M A := fun st => (Next (q (db st)), st).

(** [await queryDB(...)] for a statement that writes: the statement
    either commits a new database or raises. *)
Definition exec {A} (q : DB -> (A * DB) + string) : M A :=
  fun st =>
    match q (db st) with
    | inl (a, d) => (Next a, with_db st d)
    | inr e => (Throw e, st)
    end.

(** The response a finished handler has sent, if any, and the state it
    leaves. *)
Definition run (m : M unit) (st : Server) : option Response * Server :=
  match m st with
  | (Reply r, st') => (Some r, st')
  | (_, st') => (None, st')
  end.

Definition message (m : string) : JValue := JObj [("message", JStr m)].

Definition message_error (m e : string) : JValue :=
  JObj [("message", JStr m); ("error", JStr e)].

Definition jopt (o : option string) : JValue :=
  match o with Some s => JStr s | None => JNull end.

(** ** SQL statements of the modelled endpoints *)

Definition db_with_tasks (d : DB) (l : list TaskRow) : DB :=
  {| tasks := l; task_tags := task_tags d;
     workspace_users := workspace_users d; workspaces := workspaces d;
     task_activity := task_activity d; comments := comments d;
     comments_id_seq := comments_id_seq d;
     task_attachments := task_attachments d |}.

Definition db_with_task_tags (d : DB) (l : list (string * string)) : DB :=
  {| tasks := tasks d; task_tags := l;
     workspace_users := workspace_users d; workspaces := workspaces d;
     task_activity := task_activity d; comments := comments d;
     comments_id_seq := comments_id_seq d;
     task_attachments := task_attachments d |}.

Definition db_with_task_activity (d : DB) (l : list ActivityRow) : DB :=
  {| tasks := tasks d; task_tags := task_tags d;
     workspace_users := workspace_users d; workspaces := workspaces d;
     task_activity := l; comments := comments d;
     comments_id_seq := comments_id_seq d;
     task_attachments := task_attachments d |}.

Definition db_with_comments (d : DB) (l : list CommentRow) (seq : nat) : DB :=
  {| tasks := tasks d; task_tags := task_tags d;
     workspace_users := workspace_users d; workspaces := workspaces d;
     task_activity := task_activity d; comments := l;
     comments_id_seq := seq;
     task_attachments := task_attachments d |}.

Definition db_with_task_attachments (d : DB) (l : list AttachmentRow) : DB :=
  {| tasks := tasks d; task_tags := task_tags d;
     workspace_users := workspace_users d; workspaces := workspaces d;
     task_activity := task_activity d; comments := comments d;
     comments_id_seq := comments_id_seq d;
     task_attachments := l |}.

(** [SELECT * FROM tasks WHERE id = $1] *)
Definition select_task (id : string) (d : DB) : list TaskRow :=
  List.filter (fun t => String.eqb (t_id t) id) (tasks d).

(** [SELECT * FROM workspace_users WHERE workspace_id = $1 AND user_id = $2] *)
Definition select_workspace_user (ws uid : string) (d : DB)
  : list WorkspaceUserRow :=
  List.filter
    (fun r => String.eqb (wu_workspace_id r) ws
              && String.eqb (wu_user_id r) uid)
    (workspace_users d).

(** [SELECT owner_id FROM workspaces WHERE id = $1] *)
Definition select_owner (ws : string) (d : DB) : list WorkspaceRow :=
  List.filter (fun w => String.eqb (w_id w) ws) (workspaces d).

(** The columns of [tasks] that [UPDATE tasks SET ...] assigns: [None]
    leaves a column as it is. *)
Record TaskUpdate := {
  u_title : option string;
  u_description : option string;
  u_due_date : option (option string);
  u_priority : option string;
  u_status : option string;
  u_assigned_to : option string
}.

Definition default {A} (o : option A) (d : A) : A :=
  match o with Some a => a | None => d end.

(** The row after [SET ..., updated_at = CURRENT_TIMESTAMP]. *)
Definition set_columns (u : TaskUpdate) (ts : string) (t : TaskRow)
  : TaskRow := {|
  t_id := t_id t;
  t_workspace_id := t_workspace_id t;
  t_created_by := t_created_by t;
  t_assigned_to :=
    match u_assigned_to u with Some a => Some a | None => t_assigned_to t end;
  t_title := default (u_title u) (t_title t);
  t_description :=
    match u_description u with Some a => Some a | None => t_description t end;
  t_due_date := default (u_due_date u) (t_due_date t);
  t_priority := default (u_priority u) (t_priority t);
  t_status := default (u_status u) (t_status t);
  t_created_at := t_created_at t;
  t_updated_at := ts
|}.

Definition only_status (st : string) : TaskUpdate :=
  {| u_title := None; u_description := None; u_due_date := None;
     u_priority := None; u_status := Some st; u_assigned_to := None |}.

Section Statements.

(** The row constraint of table [tasks] (its [CHECK] clauses): an UPDATE
    that would leave a row violating it raises and changes nothing. *)
Variable tasks_check : TaskRow -> bool.

(** [UPDATE tasks SET ..., updated_at = CURRENT_TIMESTAMP WHERE id = $n] *)
Definition update_task (u : TaskUpdate) (ts id : string) (d : DB)
  : (unit * DB) + string :=
  let rows := List.map (set_columns u ts) (select_task id d) in
  if forallb tasks_check rows
  then inl (tt, db_with_tasks d
                  (List.map
                     (fun t => if String.eqb (t_id t) id
                               then set_columns u ts t else t)
                     (tasks d)))
  else inr "new row for relation tasks violates check constraint".

End Statements.

(** [INSERT INTO task_activity (task_id, user_id, action, description,
    timestamp) VALUES ($1, $2, 'status_changed', $3, CURRENT_TIMESTAMP)] *)
Definition insert_task_activity (task uid descr ts : string) (d : DB)
  : (unit * DB) + string :=
  inl (tt, db_with_task_activity d
             (task_activity d ++
              [{| a_task_id := task; a_user_id := uid;
                  a_action := "status_changed"; a_description := descr;
                  a_timestamp := ts |}])).

(** [INSERT INTO comments (task_id, user_id, content, mentions,
    created_at, updated_at) VALUES (...) RETURNING *]: the [id] column is
    drawn from the table's sequence. *)
Definition insert_comment (task uid text : string) (ments : list string)
    (ts : string) (d : DB) : (CommentRow * DB) + string :=
  let row := {| c_id := S (comments_id_seq d); c_task_id := task;
                c_user_id := uid; c_content := text; c_mentions := ments;
                c_created_at := ts; c_updated_at := ts |} in
  inl (row, db_with_comments d (comments d ++ [row]) (S (comments_id_seq d))).

(** [INSERT INTO task_attachments (task_id, file_url, added_by, added_at)
    VALUES ($1, $2, $3, CURRENT_TIMESTAMP)] *)
Definition insert_task_attachment (task url uid ts : string) (d : DB)
  : (unit * DB) + string :=
  inl (tt, db_with_task_attachments d
             (task_attachments d ++
              [{| at_task_id := task; at_file_url := url;
                  at_added_by := uid; at_added_at := ts |}])).

(** [DELETE FROM task_tags WHERE task_id = $1] *)
Definition delete_task_tags (task : string) (d : DB) : (unit * DB) + string :=
  inl (tt, db_with_task_tags d
             (List.filter (fun r => negb (String.eqb (fst r) task))
                (task_tags d))).

(** [INSERT INTO task_tags (task_id, tag) VALUES ($1, $2)
    ON CONFLICT DO NOTHING] *)
Definition insert_task_tag (task tag : string) (d : DB)
  : (unit * DB) + string :=
  if existsb (fun r => String.eqb (fst r) task && String.eqb (snd r) tag)
       (task_tags d)
  then inl (tt, d)
  else inl (tt, db_with_task_tags d (task_tags d ++ [(task, tag)])).

(** ** REST endpoints

    Each endpoint is modelled after [authenticateToken] has put the
    decoded token in [req.user]: it takes that [User], the route
    parameter and the body fields it reads. *)

(** [rows.length === 0] *)
Definition isnil {A} (l : list A) : bool :=
  match l with [] => true | _ => false end.

Definition is_admin (user : User) : bool := String.eqb (role user) "Admin".

(** [wsOwnerRes.rows.length === 0 ||
     wsOwnerRes.rows[0].owner_id !== req.user.user_id] *)
Definition no_owner_or_other (wsOwnerRes : list WorkspaceRow) (user : User)
  : bool :=
  match wsOwnerRes with
  | [] => true
  | w :: _ => negb (String.eqb (w_owner_id w) (user_id user))
  end.

Definition validStatuses : list string :=
  [ "Pending"; "In Progress"; "Completed"; "On Hold"; "Cancelled" ].

(** Body of [PUT /tasks/:task_id]; [None] is an absent ([undefined])
    field. *)
Record TaskBody := {
  b_title : option string;
  b_description : option string;
  b_due_date : option string;
  b_priority : option string;
  b_status : option string;
  b_assigned_to : option string;
  b_tags : option (list string)
}.

(** [req.file] as multer leaves it. *)
Record File := {
  f_filename : string;
  f_originalname : string
}.

Definition task_row_json (t : TaskRow) : JValue :=
  JObj [ ("id", JStr (t_id t));
         ("workspace_id", JStr (t_workspace_id t));
         ("created_by", JStr (t_created_by t));
         ("assigned_to", jopt (t_assigned_to t));
         ("title", JStr (t_title t));
         ("description", jopt (t_description t));
         ("due_date", jopt (t_due_date t));
         ("priority", JStr (t_priority t));
         ("status", JStr (t_status t));
         ("created_at", JStr (t_created_at t));
         ("updated_at", JStr (t_updated_at t)) ].

Section Endpoints.

Variable tasks_check : TaskRow -> bool.

(** [!isNaN(Date.parse(s))] *)
Variable date_parse_ok : string -> bool.

(** *** Change Task Status: [POST /tasks/:task_id/status] *)
Definition post_task_status (env : Env) (user : User) (task_id : string)
    (status : option string) : M unit :=
  match status with
  | None => reply 400 (message "Invalid status")
  | Some status =>
      if negb (includes validStatuses status)
      then reply 400 (message "Invalid status")
      else
        try_catch
          (let* taskRes := query (select_task task_id) in
           match taskRes with
           | [] => reply 404 (message "Task not found")
           | task :: _ =>
               let* accessRes :=
                 query (select_workspace_user (t_workspace_id task)
                          (user_id user)) in
               let* wsOwnerRes :=
                 query (select_owner (t_workspace_id task)) in
               if negb (is_admin user)
                  && (isnil accessRes || no_owner_or_other wsOwnerRes user)
               then reply 403 (message "Forbidden")
               else
                 await exec (update_task tasks_check (only_status status)
                               (current_timestamp env) task_id) in
                 await exec (insert_task_activity task_id (user_id user)
                               (String.append "Status changed to " status)
                               (current_timestamp env)) in
                 reply 200
                   (JObj [ ("task_id", JStr task_id);
                           ("status", JStr status);
                           ("updated_at", JStr (js_now env)) ])
           end)
          (fun err =>
             reply 500 (message_error "Error changing status" err))
  end.

(** *** Add Comment: [POST /tasks/:task_id/comments]

    No event is emitted between the insert and the response: the source
    has a TODO comment there. *)
Definition post_task_comment (env : Env) (user : User) (task_id : string)
    (content : string) (mentions : option (list string)) : M unit :=
  try_catch
    (let* taskRes := query (select_task task_id) in
     match taskRes with
     | [] => reply 404 (message "Task not found")
     | task :: _ =>
         let* accessRes :=
           query (select_workspace_user (t_workspace_id task)
                    (user_id user)) in
         let* wsOwnerRes := query (select_owner (t_workspace_id task)) in
         let* denied :=
           if negb (is_admin user) && isnil accessRes
           then match wsOwnerRes with
                | [] =>
                    throw
                      "Cannot read properties of undefined (reading 'owner_id')"
                | w :: _ =>
                    ret (negb (String.eqb (w_owner_id w) (user_id user)))
                end
           else ret false in
         if denied
         then reply 403 (message "Access denied")
         else
           let mentionsJson := default mentions [] in
           let* row :=
             exec (insert_comment task_id (user_id user) content
                     mentionsJson (current_timestamp env)) in
           reply 200
             (JObj [ ("comment_id", JNum (c_id row));
                     ("task_id", JStr task_id);
                     ("author_id", JStr (user_id user));
                     ("content", JStr content);
                     ("mentions", JArr (List.map JStr mentionsJson));
                     ("created_at", JStr (js_now env));
                     ("updated_at", JStr (js_now env)) ])
     end)
    (fun err => reply 500 (message_error "Error adding comment" err)).

(** *** Upload Attachment: [POST /tasks/:task_id/attachments] *)
Definition post_task_attachment (env : Env) (user : User) (task_id : string)
    (file : option File) : M unit :=
  match file with
  | None => reply 400 (message "No file uploaded")
  | Some file =>
      let file_url := String.append "/storage/" (f_filename file) in
      try_catch
        (let* taskRes := query (select_task task_id) in
         match taskRes with
         | [] => reply 404 (message "Task not found")
         | task :: _ =>
             let* accessRes :=
               query (select_workspace_user (t_workspace_id task)
                        (user_id user)) in
             let* wsOwnerRes :=
               query (select_owner (t_workspace_id task)) in
             if negb (is_admin user)
                && (isnil accessRes || no_owner_or_other wsOwnerRes user)
             then reply 403 (message "Access denied")
             else
               await exec (insert_task_attachment task_id file_url
                             (user_id user) (current_timestamp env)) in
               reply 200
                 (JObj [ ("attachment_id", JStr (uuid env));
                         ("task_id", JStr task_id);
                         ("file_url", JStr file_url);
                         ("filename", JStr (f_originalname file));
                         ("uploaded_at", JStr (js_now env)) ])
         end)
        (fun err =>
           reply 500 (message_error "Error uploading attachment" err))
  end.

(** *** Update Task: [PUT /tasks/:task_id] *)

(** [due_date && !isNaN(Date.parse(due_date)) ? due_date : null] *)
Definition validDueDate (due_date : string) : option string :=
  if negb (String.eqb due_date "") && date_parse_ok due_date
  then Some due_date else None.

(** The [fields]/[params] the handler collects from the body. *)
Definition update_of_body (b : TaskBody) : TaskUpdate :=
  {| u_title := b_title b;
     u_description := b_description b;
     u_due_date := option_map validDueDate (b_due_date b);
     u_priority := b_priority b;
     u_status := b_status b;
     u_assigned_to := b_assigned_to b |}.

(** [for (const tag of tags) await queryDB(INSERT INTO task_tags ...)] *)
Fixpoint insert_tags (task_id : string) (tags : list string) : M unit :=
  match tags with
  | [] => ret tt
  | tag :: rest =>
      await exec (insert_task_tag task_id tag) in insert_tags task_id rest
  end.

(** [await pool.query('ROLLBACK')] with no transaction open changes
    nothing. *)
Definition rollback : M unit := ret tt.

Definition put_task (env : Env) (user : User) (task_id : string)
    (b : TaskBody) : M unit :=
  try_catch
    (let* taskRes := query (select_task task_id) in
     match taskRes with
     | [] => reply 404 (message "Task not found")
     | task :: _ =>
         let* accessRes :=
           query (select_workspace_user (t_workspace_id task)
                    (user_id user)) in
         let* wsOwnerRes := query (select_owner (t_workspace_id task)) in
         if isnil accessRes && no_owner_or_other wsOwnerRes user
         then reply 403 (message "Access denied")
         else
           await exec (update_task tasks_check (update_of_body b)
                         (current_timestamp env) task_id) in
           await match b_tags b with
                 | Some tags =>
                     await exec (delete_task_tags task_id) in
                     insert_tags task_id tags
                 | None => ret tt
                 end in
           let* updatedTaskRes := query (select_task task_id) in
           reply 200
             match updatedTaskRes with
             | row :: _ => task_row_json row
             | [] => JNull
             end
     end)
    (fun err =>
       await rollback in
       reply 500 (message_error "Error updating task" err)).

End Endpoints.

(** ** WebSocket and event broadcast *)

(** socket.io side of a new connection, before the ['connection'] listener
    runs: the socket is in the namespace and in the room of its own id. *)
Definition accept (id : string) (st : Server) : Server :=
  with_sockets st
    (sockets st ++ [ {| sid := id; data_user := None; rooms := [id] |} ]).

(** [socket.disconnect()]: the socket leaves its rooms and the namespace. *)
Definition socket_disconnect (id : string) (st : Server) : Server :=
  with_sockets st
    (List.filter (fun s => negb (String.eqb (sid s) id)) (sockets st)).

Definition update_socket (id : string) (f : Socket -> Socket) (st : Server)
  : Server :=
  with_sockets st
    (List.map (fun s => if String.eqb (sid s) id then f s else s)
       (sockets st)).

(** [socket.data.user = user] *)
Definition set_data_user (id : string) (user : User) : Server -> Server :=
  update_socket id
    (fun s => {| sid := sid s; data_user := Some user; rooms := rooms s |}).

(** [socket.join(room)]: rooms are sets, joining twice changes nothing. *)
Definition socket_join (id room : string) : Server -> Server :=
  update_socket id
    (fun s => {| sid := sid s; data_user := data_user s;
                 rooms := if includes (rooms s) room then rooms s
                          else rooms s ++ [room] |}).

Definition in_room (room : string) (s : Socket) : bool :=
  includes (rooms s) room.

(** The sockets [io.of('/').to(room)] addresses. *)
Definition recipients (room : string) (st : Server) : list Socket :=
  List.filter (in_room room) (sockets st).

(** [io.of('/').to(room).emit(event, message)] *)
Definition emit_to (room event : string) (msg : JValue) (st : Server)
  : Server :=
  {| db := db st;
     sockets := sockets st;
     emitted := emitted st ++
                [ {| em_room := room; em_event := event;
                     em_message := msg |} ];
     delivered := delivered st ++
                  List.map
                    (fun s => {| dl_sid := sid s; dl_event := event;
                                 dl_message := msg |})
                    (recipients room st) |}.

(** Helper function for broadcasting. *)
Definition broadcastEvent (channel : string) (msg : JValue) (st : Server)
  : Server :=
  emit_to channel channel msg st.

Section Connection.

(** [jwt.verify(token, JWT_SECRET, cb)]: [None] when [cb] gets an [err],
    the decoded payload otherwise. *)
Variable jwt_verify : string -> option User.

(** The ['connection'] listener, run on the socket [id] with
    [socket.handshake.auth.token]; [None] is an absent token. *)
Definition on_connection (id : string) (token : option string)
    (st : Server) : Server :=
  match token with
  | None => socket_disconnect id st
  | Some token =>
      if String.eqb token ""
      then socket_disconnect id st
      else
        match jwt_verify token with
        | None => socket_disconnect id st
        | Some user =>
            socket_join id (String.append "user_" (user_id user))
              (set_data_user id user st)
        end
  end.

(** A whole handshake: socket.io creates the socket, the listener runs. *)
Definition connect (id : string) (token : option string) (st : Server)
  : Server :=
  on_connection id token (accept id st).

End Connection.

(** Example events (the functions after the connection listener). *)

Definition broadcastTaskStatusUpdate (env : Env) (task_id new_status : string)
    (st : Server) : Server :=
  let timestamp := js_now env in
  let payload := JObj [ ("task_id", JStr task_id);
                        ("new_status", JStr new_status);
                        ("timestamp", JStr timestamp) ] in
  broadcastEvent "task/status/updated" payload st.

Definition broadcastCommentCreated (comment : JValue) (st : Server)
  : Server :=
  let payload := comment in
  broadcastEvent "task/comment/new" payload st.

Definition broadcastAttachmentUploaded (attachment : JValue) (st : Server)
  : Server :=
  let payload := attachment in
  broadcastEvent "task/attachment/uploaded" payload st.

Definition broadcastTaskReordered (reorderData : JValue) (st : Server)
  : Server :=
  broadcastEvent "task/reorder" reorderData st.

Definition broadcastActivityStream (activity : JValue) (st : Server)
  : Server :=
  broadcastEvent "activity/stream" activity st.

(** The channels the broadcast functions emit on. *)
Definition broadcast_channels : list string :=
  [ "task/status/updated"; "task/comment/new"; "task/attachment/uploaded";
    "task/reorder"; "activity/stream" ].

(** ** The server as a transition system

    What can happen to the running server: a client connects or goes
    away, one of the modelled endpoints is requested, one of the
    broadcast functions is called.  [server.js] defines the broadcast
    functions and calls them from nowhere; they are actions of their own
    here, so that statements about delivery hold whoever calls them. *)

Inductive Request :=
| PostTaskStatus (env : Env) (user : User) (task_id : string)
    (status : option string)
| PostTaskComment (env : Env) (user : User) (task_id : string)
    (content : string) (mentions : option (list string))
| PostTaskAttachment (env : Env) (user : User) (task_id : string)
    (file : option File)
| PutTask (env : Env) (user : User) (task_id : string) (b : TaskBody).

Inductive Broadcast :=
| TaskStatusUpdate (env : Env) (task_id new_status : string)
| CommentCreated (comment : JValue)
| AttachmentUploaded (attachment : JValue)
| TaskReordered (reorderData : JValue)
| ActivityStream (activity : JValue).

Inductive Action :=
| Connect (id : string) (token : option string)
| Disconnect (id : string)
| Http (r : Request)
| Call (b : Broadcast).

Definition broadcast (b : Broadcast) : Server -> Server :=
  match b with
  | TaskStatusUpdate env task_id new_status =>
      broadcastTaskStatusUpdate env task_id new_status
  | CommentCreated c => broadcastCommentCreated c
  | AttachmentUploaded a => broadcastAttachmentUploaded a
  | TaskReordered r => broadcastTaskReordered r
  | ActivityStream a => broadcastActivityStream a
  end.

(** socket.io draws socket ids of 20 characters, each one new. *)
Definition socket_id_ok (id : string) (st : Server) : bool :=
  Nat.eqb (String.length id) 20
  && negb (existsb (fun s => String.eqb (sid s) id) (sockets st)).

Definition action_ok (a : Action) (st : Server) : bool :=
  match a with
  | Connect id _ => socket_id_ok id st
  | _ => true
  end.

Section System.

Variable tasks_check : TaskRow -> bool.
Variable date_parse_ok : string -> bool.
Variable jwt_verify : string -> option User.

Definition handle (r : Request) : M unit :=
  match r with
  | PostTaskStatus env user task_id status =>
      post_task_status tasks_check env user task_id status
  | PostTaskComment env user task_id content mentions =>
      post_task_comment env user task_id content mentions
  | PostTaskAttachment env user task_id file =>
      post_task_attachment env user task_id file
  | PutTask env user task_id b =>
      put_task tasks_check date_parse_ok env user task_id b
  end.

Definition perform (a : Action) (st : Server) : Server :=
  match a with
  | Connect id token => connect jwt_verify id token st
  | Disconnect id => socket_disconnect id st
  | Http r => snd (run (handle r) st)
  | Call b => broadcast b st
  end.

Inductive reachable : Server -> Prop :=
| reachable_init (d : DB) : reachable (initial_server d)
| reachable_step (a : Action) (st : Server) :
    reachable st -> action_ok a st = true -> reachable (perform a st).

End System.

(** ** Properties used in the statements *)

(** The two states differ at most in the database. *)
Definition same_io (st st' : Server) : Prop :=
  sockets st' = sockets st
  /\ emitted st' = emitted st
  /\ delivered st' = delivered st.

(** A computation that touches nothing but the database. *)
Definition db_only {A} (m : M A) : Prop :=
  forall st, same_io st (snd (m st)).

(** The rooms a socket can be in: the one of its own 20-character id and
    per-user rooms [user_<user_id>]. *)
Definition rooms_ok (s : Socket) : Prop :=
  String.length (sid s) = 20
  /\ Forall (fun r => r = sid s
                      \/ exists uid, r = String.append "user_" uid)
       (rooms s).

(** The [CHECK] clauses of table [tasks] in the schema file:
    [priority IN ('Low', 'Medium', 'High')] and
    [status IN ('Pending', 'In Progress', 'Completed', 'On Hold',
    'Cancelled')]. *)
Definition schema_tasks_check (t : TaskRow) : bool :=
  includes [ "Low"; "Medium"; "High" ] (t_priority t)
  && includes [ "Pending"; "In Progress"; "Completed"; "On Hold";
                "Cancelled" ] (t_status t).

End Backend.

(** * Sample data: the seed rows of the schema file *)
Module Seed.
Import Backend.

Definition ts0 : string := "2024-05-01T09:00:00.000Z".

Definition alice : User :=
  {| user_id := "user1"; email := "alice@example.com"; role := "Admin";
     name := "Alice Smith" |}.
Definition bob : User :=
  {| user_id := "user2"; email := "bob@example.com"; role := "Team Member";
     name := "Bob Johnson" |}.
Definition carol : User :=
  {| user_id := "user3"; email := "carol@example.com"; role := "Viewer";
     name := "Carol Williams" |}.
Definition dave : User :=
  {| user_id := "user4"; email := "dave@example.com"; role := "Team Member";
     name := "Dave Brown" |}.

Definition task1 : TaskRow :=
  {| t_id := "task1"; t_workspace_id := "workspace1";
     t_created_by := "user1"; t_assigned_to := Some "user2";
     t_title := "Design UI mockups";
     t_description := Some "Create initial UI mockups for the app";
     t_due_date := Some "2024-05-08T09:00:00.000Z";
     t_priority := "High"; t_status := "In Progress";
     t_created_at := ts0; t_updated_at := ts0 |}.

Definition task2 : TaskRow :=
  {| t_id := "task2"; t_workspace_id := "workspace1";
     t_created_by := "user2"; t_assigned_to := Some "user3";
     t_title := "Write project documentation";
     t_description :=
       Some "Draft the project documentation and gather feedback";
     t_due_date := Some "2024-05-15T09:00:00.000Z";
     t_priority := "Medium"; t_status := "Pending";
     t_created_at := ts0; t_updated_at := ts0 |}.

Definition task3 : TaskRow :=
  {| t_id := "task3"; t_workspace_id := "workspace2";
     t_created_by := "user5"; t_assigned_to := Some "user4";
     t_title := "Set up onboarding meeting";
     t_description :=
       Some "Organize initial onboarding meeting for new team members";
     t_due_date := Some "2024-05-04T09:00:00.000Z";
     t_priority := "Low"; t_status := "Pending";
     t_created_at := ts0; t_updated_at := ts0 |}.

Definition seed_db : DB :=
  {| tasks := [ task1; task2; task3 ];
     task_tags := [ ("task1", "UI"); ("task1", "Design");
                    ("task2", "Documentation"); ("task3", "Onboarding") ];
     workspace_users :=
       [ {| wu_workspace_id := "workspace1"; wu_user_id := "user1";
            wu_role := "Admin" |};
         {| wu_workspace_id := "workspace1"; wu_user_id := "user2";
            wu_role := "Team Member" |};
         {| wu_workspace_id := "workspace1"; wu_user_id := "user3";
            wu_role := "Viewer" |};
         {| wu_workspace_id := "workspace2"; wu_user_id := "user5";
            wu_role := "Admin" |};
         {| wu_workspace_id := "workspace2"; wu_user_id := "user4";
            wu_role := "Team Member" |} ];
     workspaces :=
       [ {| w_id := "workspace1"; w_name := "Project Alpha";
            w_owner_id := "user1" |};
         {| w_id := "workspace2"; w_name := "Team Beta";
            w_owner_id := "user5" |} ];
     task_activity := [];
     comments := [];
     comments_id_seq := 0;
     task_attachments := [] |}.

(** A verifier for the examples: the token [jwt-<user_id>] decodes to
    that seed user, anything else fails. *)
Definition verify (token : string) : option User :=
  List.find (fun u => String.eqb (String.append "jwt-" (user_id u)) token)
    [ alice; bob; carol; dave ].

Definition env1 : Env :=
  {| js_now := "2024-05-02T10:00:00.000Z";
     uuid := "7d44c1f0-0000-4000-8000-000000000001";
     current_timestamp := "2024-05-02T10:00:00.000Z" |}.

(** The seeded server with Bob's browser connected. *)
Definition bob_online : Server :=
  connect verify "k3Jx0aLq9ZtPw2Ym5BnR" (Some "jwt-user2")
    (initial_server seed_db).

(** A body for [PUT /tasks/:task_id] that only names a status. *)
Definition body_status (st : string) : TaskBody :=
  {| b_title := None; b_description := None; b_due_date := None;
     b_priority := None; b_status := Some st; b_assigned_to := None;
     b_tags := None |}.

(** Client side: a comment of task1 and the store of a browser that has
    task1 open. *)
Definition comment1 : Client.Comment :=
  {| Client.comment_id := "1"; Client.author_id := "user2";
     Client.content := "Please review the mockups and give feedback.";
     Client.comment_created_at := ts0; Client.comment_updated_at := ts0;
     Client.mentions := [ "user3" ]; Client.user_name := None;
     Client.comment_task_id := Some "task1" |}.

Definition client_task1 : Client.Task :=
  {| Client.task_id := "task1"; Client.workspace_id := "workspace1";
     Client.created_by := "user1"; Client.assigned_to := Some "user2";
     Client.title := "Design UI mockups";
     Client.description := Some "Create initial UI mockups for the app";
     Client.due_date := Some "2024-05-08T09:00:00.000Z";
     Client.priority := "High"; Client.status := "Completed";
     Client.is_favorited := false;
     Client.created_at := ts0;
     Client.updated_at := "2024-05-03T12:00:00.000Z";
     Client.tags := [ "UI"; "Design" ];
     Client.comments := [ comment1 ];
     Client.attachments := [];
     Client.activity_log := [] |}.

Definition store1 : Client.AppState :=
  Client.set_current_task
    (Client.set_tasks Client.initial_state [ client_task1 ])
    (Some client_task1).

(** A second comment on task1, as the [comment_created] payload. *)
Definition comment2 : Client.Comment :=
  {| Client.comment_id := "2"; Client.author_id := "user3";
     Client.content := "Draft looks good, but needs some revisions.";
     Client.comment_created_at := "2024-05-02T10:00:00.000Z";
     Client.comment_updated_at := "2024-05-02T10:00:00.000Z";
     Client.mentions := []; Client.user_name := Some "Carol Williams";
     Client.comment_task_id := Some "task1" |}.

Definition mockup_file : File :=
  {| f_filename := "0f3c9a7e5d1b4c2e8a6f"; f_originalname := "mockup.png" |}.

(** A status event for task1 stamped a day before the cached
    [updated_at]. *)
Definition stale_event : Client.StatusPayload :=
  {| Client.sp_task_id := "task1"; Client.sp_status := "Pending";
     Client.sp_timestamp := "2024-05-02T10:00:00.000Z" |}.

End Seed.

(** * More of the server: token middleware, task creation and deletion *)
Module Api.
Import Backend.

(** ** JavaScript string helpers *)

(** [s.split(' ')]: the pieces of [s] between single spaces; a string
    without a space is its only piece. *)
Fixpoint split_space (s : string) : list string :=
  match s with
  | EmptyString => [ EmptyString ]
  | String a rest =>
      if Ascii.eqb a " "%char
      then EmptyString :: split_space rest
      else match split_space rest with
           | piece :: pieces => String a piece :: pieces
           | [] => [ String a EmptyString ]
           end
  end.

Fixpoint no_space (s : string) : bool :=
  match s with
  | EmptyString => true
  | String a rest => negb (Ascii.eqb a " "%char) && no_space rest
  end.

(** [x || d] on an optional string: [undefined] and [''] give [d]. *)
Definition or_default (x : option string) (d : string) : string :=
  match x with
  | Some s => if String.eqb s "" then d else s
  | None => d
  end.

(** [x || null] *)
Definition or_null (x : option string) : option string :=
  match x with
  | Some s => if String.eqb s "" then None else Some s
  | None => None
  end.

(** ** JWT middleware *)
Section Middleware.

Variable jwt_verify : string -> option User.

(** [authenticateToken]: the response it sends, or the user it stores in
    [req.user] before calling [next()].  The argument is
    [req.headers['authorization']]. *)
Definition authenticateToken (authHeader : option string) : Response + User :=
  let token :=
    match authHeader with
    | None => None
    | Some h => if String.eqb h "" then Some "" else nth_error (split_space h) 1
    end in
  match token with
  | None => inl {| code := 401; body := message "No token provided" |}
  | Some t =>
      if String.eqb t ""
      then inl {| code := 401; body := message "No token provided" |}
      else match jwt_verify t with
           | None => inl {| code := 403; body := message "Invalid token" |}
           | Some user => inr user
           end
  end.

(** [app.METHOD(path, authenticateToken, handler)] *)
Definition authenticated (authHeader : option string)
    (handler : User -> M unit) : M unit :=
  match authenticateToken authHeader with
  | inl r => fun st => (Reply r, st)
  | inr user => handler user
  end.

End Middleware.

(** ** Create Task: [POST /tasks] *)

(** Body of [POST /tasks]; [None] is an absent field. *)
Record NewTask := {
  n_workspace_id : string;
  n_title : string;
  n_description : option string;
  n_due_date : option string;
  n_priority : option string;
  n_status : option string;
  n_assigned_to : option string;
  n_tags : option (list string)
}.

(** [BEGIN] and [COMMIT] sent through [pool.query].  The only statement
    of the handler that can raise in this model is its first write, so
    whether the statements in between run inside the transaction makes
    no difference to the state. *)
Definition begin_ : M unit := ret tt.
Definition commit : M unit := ret tt.

Section Lifecycle.

Variable tasks_check : TaskRow -> bool.
Variable date_parse_ok : string -> bool.

(** Whether the tables that reference [tasks] were created with
    [ON DELETE CASCADE], as the schema file has it. *)
Variable on_delete_cascade : bool.

(** [INSERT INTO tasks (...) VALUES (...) RETURNING *]: refused by the
    row constraint or by the primary key. *)
Definition insert_task (row : TaskRow) (d : DB) : (TaskRow * DB) + string :=
  if negb (tasks_check row)
  then inr "new row for relation tasks violates check constraint"
  else if existsb (fun t => String.eqb (t_id t) (t_id row)) (tasks d)
  then inr "duplicate key value violates unique constraint tasks_pkey"
  else inl (row, db_with_tasks d (tasks d ++ [ row ])).

Definition post_task (env : Env) (user : User) (b : NewTask) : M unit :=
  let workspace_id := n_workspace_id b in
  await
    try_catch
      (let* accessRes :=
         query (select_workspace_user workspace_id (user_id user)) in
       let* hasAccess :=
         if negb (isnil accessRes)
         then ret true
         else
           let* wsOwnerRes := query (select_owner workspace_id) in
           ret match wsOwnerRes with
               | w :: _ => String.eqb (w_owner_id w) (user_id user)
               | [] => false
               end in
       if negb hasAccess
       then reply 403 (message "Access denied to workspace")
       else ret tt)
      (fun err =>
         reply 500 (message_error "Error verifying workspace access" err)) in
  let task_id := uuid env in
  let taskStatus := or_default (n_status b) "Pending" in
  let taskPriority := or_default (n_priority b) "Medium" in
  try_catch
    (await begin_ in
     let validDueDate :=
       match n_due_date b with
       | Some d => validDueDate date_parse_ok d
       | None => None
       end in
     let* row :=
       exec (insert_task
               {| t_id := task_id;
                  t_workspace_id := workspace_id;
                  t_created_by := user_id user;
                  t_assigned_to := or_null (n_assigned_to b);
                  t_title := n_title b;
                  t_description := or_null (n_description b);
                  t_due_date := validDueDate;
                  t_priority := taskPriority;
                  t_status := taskStatus;
                  t_created_at := current_timestamp env;
                  t_updated_at := current_timestamp env |}) in
     await match n_tags b with
           | Some tags => insert_tags task_id tags
           | None => ret tt
           end in
     await commit in
     reply 200 (task_row_json row))
    (fun err =>
       await rollback in
       reply 500 (message_error "Error creating task" err)).

(** ** Delete Task: [DELETE /tasks/:task_id] *)

(** [DELETE FROM tasks WHERE id = $1], with the cascade into the tables
    that reference the task when the schema has it. *)
Definition delete_task_row (id : string) (d : DB) : (unit * DB) + string :=
  let keep_task := List.filter (fun t => negb (String.eqb (t_id t) id)) in
  if on_delete_cascade
  then inl (tt,
            {| tasks := keep_task (tasks d);
               task_tags :=
                 List.filter (fun r => negb (String.eqb (fst r) id))
                   (task_tags d);
               workspace_users := workspace_users d;
               workspaces := workspaces d;
               task_activity :=
                 List.filter (fun a => negb (String.eqb (a_task_id a) id))
                   (task_activity d);
               comments :=
                 List.filter (fun c => negb (String.eqb (c_task_id c) id))
                   (comments d);
               comments_id_seq := comments_id_seq d;
               task_attachments :=
                 List.filter (fun a => negb (String.eqb (at_task_id a) id))
                   (task_attachments d) |})
  else inl (tt, db_with_tasks d (keep_task (tasks d))).

Definition delete_task (user : User) (task_id : string) : M unit :=
  try_catch
    (let* taskRes := query (select_task task_id) in
     match taskRes with
     | [] => reply 404 (message "Task not found")
     | task :: _ =>
         let* accessRes :=
           query (select_workspace_user (t_workspace_id task)
                    (user_id user)) in
         let* wsOwnerRes := query (select_owner (t_workspace_id task)) in
         if negb (is_admin user)
            && (isnil accessRes || no_owner_or_other wsOwnerRes user)
         then reply 403 (message "Forbidden")
         else
           await exec (delete_task_row task_id) in
           reply 200
             (JObj [ ("message", JStr "Task deleted successfully");
                     ("task_id", JStr task_id) ])
     end)
    (fun err => reply 500 (message_error "Error deleting task" err)).

End Lifecycle.

(** ** Invariants *)

(** Comment ids are pairwise different and none is beyond the sequence
    of the table. *)
Definition comment_ids_ok (d : DB) : Prop :=
  List.NoDup (List.map c_id (comments d))
  /\ Forall (fun c => c_id c <= comments_id_seq d) (comments d).

(** A socket that belongs to a verified user: it carries the decoded
    token, and it is in the room of its own 20-character id and in the
    room of that user, in no other. *)
Definition session_of (jwt_verify : string -> option User) (s : Socket)
  : Prop :=
  String.length (sid s) = 20
  /\ exists token user,
       jwt_verify token = Some user
       /\ data_user s = Some user
       /\ In (String.append "user_" (user_id user)) (rooms s)
       /\ Forall (fun r => r = sid s
                           \/ r = String.append "user_" (user_id user))
            (rooms s).

(** Whether the socket carries the user with this id. *)
Definition of_user (uid : string) (s : Socket) : bool :=
  match data_user s with
  | Some u => String.eqb (user_id u) uid
  | None => false
  end.

(** ** Relations between the database before and after a handler *)

(** A computation whose effect on the database stays within [R]. *)
Definition keeps (R : DB -> DB -> Prop) {A} (m : M A) : Prop :=
  forall st, R (db st) (db (snd (m st))).

(** Workspaces and their members are the same. *)
Definition same_access (d d' : DB) : Prop :=
  workspaces d' = workspaces d /\ workspace_users d' = workspace_users d.

(** What a task is: its id, workspace, creator and creation time. *)
Definition task_identity (t : TaskRow) : string * string * string * string :=
  (t_id t, t_workspace_id t, t_created_by t, t_created_at t).

(** The same tasks, in the same order, with the same identities. *)
Definition same_task_identities (d d' : DB) : Prop :=
  List.map task_identity (tasks d') = List.map task_identity (tasks d).

(** Activity, comments and attachments were only appended to. *)
Definition logs_grow (d d' : DB) : Prop :=
  (exists l, task_activity d' = task_activity d ++ l)
  /\ (exists l, comments d' = comments d ++ l)
  /\ (exists l, task_attachments d' = task_attachments d ++ l).


End Api.

(** * Properties of the client store *)
Section ClientFacts.
Import Client.

(** ** [findIndex] and index assignment *)

Lemma findIndex_lookup {A} (p : A -> bool) (l : list A) (i : nat) :
  findIndex p l = Some i -> exists x, l !! i = Some x /\ p x = true.
Proof.
  revert i. induction l as [|y l IH]; intros i H; simpl in H.
  - discriminate.
  - destruct (p y) eqn:Hy.
    + injection H as <-. exists y. split; [reflexivity | exact Hy].
    + destruct (findIndex p l) as [j|] eqn:Hj; simpl in H; [|discriminate].
      injection H as <-. destruct (IH j eq_refl) as (x & Hx & Hp).
      exists x. split; [exact Hx | exact Hp].
Qed.

Lemma findIndex_insert {A} (p : A -> bool) (l : list A) (i : nat) (y : A) :
  findIndex p l = Some i -> p y = true -> findIndex p (<[i := y]> l) = Some i.
Proof.
  revert i. induction l as [|x l IH]; intros i H Hy; simpl in H.
  - discriminate.
  - destruct (p x) eqn:Hx.
    + injection H as <-. simpl. rewrite Hy. reflexivity.
    + destruct (findIndex p l) as [j|] eqn:Hj; simpl in H; [|discriminate].
      injection H as <-. simpl. rewrite Hx, (IH j eq_refl Hy). reflexivity.
Qed.

Lemma findIndex_push {A} (p : A -> bool) (l : list A) (y : A) :
  findIndex p l = None -> p y = true ->
  findIndex p (l ++ [y]) = Some (length l).
Proof.
  induction l as [|x l IH]; intros H Hy; simpl in *.
  - rewrite Hy. reflexivity.
  - destruct (p x); [discriminate|].
    destruct (findIndex p l); [discriminate|].
    rewrite (IH eq_refl Hy). reflexivity.
Qed.

Lemma insert_pushed {A} (l : list A) (y : A) :
  <[length l := y]> (l ++ [y]) = l ++ [y].
Proof. induction l as [|x l IH]; simpl; [reflexivity | now rewrite IH]. Qed.

(** ** The handlers that merge by identifier are idempotent *)

Lemma spread_status_twice (t : Task) (st ts : string) :
  spread_status (spread_status t st ts) st ts = spread_status t st ts.
Proof. reflexivity. Qed.

Lemma handle_notification_update_idempotent (s : AppState)
    (payload : Notification) :
  handle_notification_update (handle_notification_update s payload) payload
  = handle_notification_update s payload.
Proof.
  unfold handle_notification_update.
  set (p := fun n => String.eqb (notification_id n) (notification_id payload)).
  assert (Hp : p payload = true) by apply String.eqb_refl.
  destruct (findIndex p (notifications s)) as [i|] eqn:Hi; simpl.
  - rewrite (findIndex_insert _ _ _ _ Hi Hp).
    unfold set_notifications; simpl. now rewrite list_insert_insert_eq.
  - rewrite (findIndex_push _ _ _ Hi Hp).
    unfold set_notifications; simpl. now rewrite insert_pushed.
Qed.

(** What [handle_task_status_updated] leaves in each field of the store. *)
Lemma handle_task_status_updated_tasks (s : AppState)
    (payload : StatusPayload) :
  tasks (handle_task_status_updated s payload)
  = match findIndex (fun t => String.eqb (task_id t) (sp_task_id payload))
            (tasks s) with
    | Some index =>
        match tasks s !! index with
        | Some t =>
            <[index := spread_status t (sp_status payload)
                         (sp_timestamp payload)]> (tasks s)
        | None => tasks s
        end
    | None => tasks s
    end.
Proof.
  unfold handle_task_status_updated.
  destruct (findIndex _ (tasks s)) as [i|]; [destruct (tasks s !! i)|];
    simpl; destruct (current_task s) as [ct|]; simpl;
    try destruct (String.eqb (task_id ct) (sp_task_id payload));
    reflexivity.
Qed.

Lemma handle_task_status_updated_current_task (s : AppState)
    (payload : StatusPayload) :
  current_task (handle_task_status_updated s payload)
  = match current_task s with
    | Some ct =>
        if String.eqb (task_id ct) (sp_task_id payload)
        then Some (spread_status ct (sp_status payload)
                     (sp_timestamp payload))
        else Some ct
    | None => None
    end.
Proof.
  unfold handle_task_status_updated.
  destruct (findIndex _ (tasks s)) as [i|]; [destruct (tasks s !! i)|];
    simpl; destruct (current_task s) as [ct|] eqn:Hct; simpl;
    try destruct (String.eqb (task_id ct) (sp_task_id payload));
    simpl; auto.
Qed.

Lemma handle_task_status_updated_frame (s : AppState)
    (payload : StatusPayload) :
  let s' := handle_task_status_updated s payload in
  auth_token s' = auth_token s
  /\ current_user s' = current_user s
  /\ workspaces s' = workspaces s
  /\ selected_workspace s' = selected_workspace s
  /\ notifications s' = notifications s
  /\ user_preferences s' = user_preferences s
  /\ socket s' = socket s
  /\ socket_connected s' = socket_connected s.
Proof.
  unfold handle_task_status_updated.
  destruct (findIndex _ (tasks s)) as [i|]; [destruct (tasks s !! i)|];
    simpl; destruct (current_task s) as [ct|]; simpl;
    try destruct (String.eqb (task_id ct) (sp_task_id payload));
    simpl; repeat split; reflexivity.
Qed.

Lemma AppState_ext (a b : AppState) :
  auth_token a = auth_token b ->
  current_user a = current_user b ->
  workspaces a = workspaces b ->
  selected_workspace a = selected_workspace b ->
  tasks a = tasks b ->
  current_task a = current_task b ->
  notifications a = notifications b ->
  user_preferences a = user_preferences b ->
  socket a = socket b ->
  socket_connected a = socket_connected b ->
  a = b.
Proof. destruct a, b; simpl; intros; subst; reflexivity. Qed.

Lemma handle_task_status_updated_idempotent (s : AppState)
    (payload : StatusPayload) :
  handle_task_status_updated (handle_task_status_updated s payload) payload
  = handle_task_status_updated s payload.
Proof.
  set (s1 := handle_task_status_updated s payload).
  pose proof (handle_task_status_updated_frame s1 payload) as F.
  simpl in F. destruct F as (F1 & F2 & F3 & F4 & F5 & F6 & F7 & F8).
  apply AppState_ext; try assumption.
  - rewrite handle_task_status_updated_tasks. subst s1.
    rewrite handle_task_status_updated_tasks.
    set (p := fun t => String.eqb (task_id t) (sp_task_id payload)).
    destruct (findIndex p (tasks s)) as [i|] eqn:Hi; [|now rewrite Hi].
    destruct (findIndex_lookup _ _ _ Hi) as (t & Ht & Hpt). rewrite Ht.
    rewrite (findIndex_insert p _ _
               (spread_status t (sp_status payload) (sp_timestamp payload))
               Hi Hpt).
    rewrite list_lookup_insert_eq by (eapply lookup_lt_Some; eassumption).
    apply list_insert_insert_eq.
  - rewrite handle_task_status_updated_current_task. subst s1.
    rewrite handle_task_status_updated_current_task.
    destruct (current_task s) as [ct|]; [|reflexivity].
    destruct (String.eqb (task_id ct) (sp_task_id payload)) eqn:Hid.
    + simpl. rewrite Hid. reflexivity.
    + rewrite Hid. reflexivity.
Qed.

(** A [comment_created] event for another task, or with no task open,
    changes nothing. *)
Lemma handle_comment_created_other_task (s : AppState) (payload : Comment) :
  (forall ct, current_task s = Some ct ->
              comment_task_id payload <> Some (task_id ct)) ->
  handle_comment_created s payload = s.
Proof.
  intros H. unfold handle_comment_created.
  destruct (current_task s) as [ct|]; [|reflexivity].
  specialize (H ct eq_refl).
  destruct (comment_task_id payload) as [tid|]; [|reflexivity].
  destruct (String.eqb (task_id ct) tid) eqn:E; [|reflexivity].
  apply String.eqb_eq in E. congruence.
Qed.

(** A [comment_created] event for the open task appends its payload,
    whatever the sequence already holds. *)
Lemma handle_comment_created_appends (s : AppState) (payload : Comment)
    (ct : Task) :
  current_task s = Some ct ->
  comment_task_id payload = Some (task_id ct) ->
  current_task (handle_comment_created s payload)
  = Some (spread_comments ct (comments ct ++ [payload])).
Proof.
  intros Hct Hid. unfold handle_comment_created.
  rewrite Hct, Hid, String.eqb_refl. reflexivity.
Qed.

(** ** Idempotence of event application *)

(** C3, at the input where it fails: with task1 open in the store, the
    [comment_created] event for a new comment of task1 applied twice
    leaves a store different from the one after a single application; the
    comment sequence of the open task then holds the comment two times.
    ([handle_notification_update_idempotent] and
    [handle_task_status_updated_idempotent] show the other two events are
    idempotent on every store.) *)
Theorem comment_created_twice_differs_from_once :
  let e := CommentCreated Seed.comment2 in
  on_event (on_event Seed.store1 e) e <> on_event Seed.store1 e
  /\ option_map comments (current_task (on_event Seed.store1 e))
     = Some [ Seed.comment1; Seed.comment2 ]
  /\ option_map comments (current_task (on_event (on_event Seed.store1 e) e))
     = Some [ Seed.comment1; Seed.comment2; Seed.comment2 ].
Proof.
  split; [|split]; [|reflexivity|reflexivity].
  intros H. apply (f_equal current_task) in H.
  apply (f_equal (option_map (fun t => length (comments t)))) in H.
  vm_compute in H. discriminate.
Qed.

(** C4, at the input where it fails: the open task already holds the
    comment with [comment_id] 1 (the client's own comment, applied
    locally); the echoed [comment_created] event with the same
    [comment_id] is appended, so the identifier occurs twice in the
    comment sequence. *)
Theorem echoed_comment_appears_twice :
  let ids (s : AppState) :=
    option_map (fun t => List.map comment_id (comments t)) (current_task s) in
  let s' := handle_comment_created Seed.store1 Seed.comment1 in
  comment_id Seed.comment1 = "1"
  /\ ids Seed.store1 = Some [ "1" ]
  /\ ids s' = Some [ "1"; "1" ]
  /\ option_map (fun l => count_occ string_dec l "1") (ids s') = Some 2.
Proof. repeat split. Qed.

(** ** Status events and timestamps *)

(** C5 fails at this input: the cached task1 is "Completed" with
    [updated_at] 2024-05-03; the event carries "Pending" and a timestamp
    of 2024-05-02, strictly older (timestamps are [toISOString] strings,
    which order chronologically as strings).  After the handler the cached
    status is the event's and [updated_at] went back, in [current_task]
    and in [tasks]. *)
Lemma stale_status_event_regresses_cache :
  let s' := handle_task_status_updated Seed.store1 Seed.stale_event in
  current_task Seed.store1 = Some Seed.client_task1
  /\ sp_task_id Seed.stale_event = task_id Seed.client_task1
  /\ String.ltb (sp_timestamp Seed.stale_event)
       (updated_at Seed.client_task1) = true
  /\ option_map status (current_task s') = Some "Pending"
  /\ option_map status (current_task s')
     <> Some (status Seed.client_task1)
  /\ option_map updated_at (current_task s')
     = Some "2024-05-02T10:00:00.000Z"
  /\ List.map status (tasks s') = [ "Pending" ]
  /\ List.map updated_at (tasks s') = [ "2024-05-02T10:00:00.000Z" ].
Proof. vm_compute. repeat split; try reflexivity. discriminate. Qed.

(** C5 as amended: the handler compares no timestamps.  For every store
    and every [task_status_updated] event, whatever its timestamp: the
    open task, when it has the event's [task_id], gets the event's status
    and timestamp as [status] and [updated_at]; so does the first entry of
    [tasks] with that [task_id]; every other entry of [tasks] and every
    other field of the two tasks stays. *)
Theorem status_event_overwrites_whatever_timestamp (s : AppState)
    (payload : StatusPayload) :
  let s' := handle_task_status_updated s payload in
  let st := sp_status payload in
  let ts := sp_timestamp payload in
  (forall ct : Task,
     current_task s = Some ct ->
     task_id ct = sp_task_id payload ->
     current_task s' = Some (spread_status ct st ts))
  /\ (forall (i : nat) (t : Task),
        findIndex (fun x => String.eqb (task_id x) (sp_task_id payload))
          (tasks s) = Some i ->
        tasks s !! i = Some t ->
        tasks s' !! i = Some (spread_status t st ts)
        /\ (forall j, j <> i -> tasks s' !! j = tasks s !! j)
        /\ length (tasks s') = length (tasks s)).
Proof.
  intros s' st ts. subst s' st ts. split.
  - intros ct Hct Hid.
    rewrite handle_task_status_updated_current_task, Hct, Hid,
      String.eqb_refl.
    reflexivity.
  - intros i t Hi Ht.
    rewrite handle_task_status_updated_tasks, Hi, Ht.
    split; [|split].
    + apply list_lookup_insert_eq. eapply lookup_lt_Some; eassumption.
    + intros j Hj. apply list_lookup_insert_ne. congruence.
    + apply length_insert.
Qed.

Lemma status_event_overwrites_whatever_timestamp_witness :
  String.ltb (sp_timestamp Seed.stale_event)
    (updated_at Seed.client_task1) = true
  /\ let s' := handle_task_status_updated Seed.store1 Seed.stale_event in
     current_task s'
     = Some (spread_status Seed.client_task1 "Pending"
               "2024-05-02T10:00:00.000Z")
     /\ tasks s' !! 0
        = Some (spread_status Seed.client_task1 "Pending"
                  "2024-05-02T10:00:00.000Z")
     /\ (forall j, j <> 0 -> tasks s' !! j = tasks Seed.store1 !! j)
     /\ length (tasks s') = length (tasks Seed.store1).
Proof.
  split; [reflexivity|].
  destruct (status_event_overwrites_whatever_timestamp Seed.store1
              Seed.stale_event) as [Hcur Hlist].
  split.
  - apply (Hcur Seed.client_task1); reflexivity.
  - apply (Hlist 0 Seed.client_task1); reflexivity.
Defined.

(** ** Events without effect *)

(** C10: the handlers of [task_reorder] and [activity/stream] return the
    store they were given, for every store and every payload; so does the
    listener dispatch for these two events. *)
Theorem reorder_and_activity_events_leave_store (s : AppState)
    (payload : JValue) (activity : Activity) :
  handle_task_reordered s payload = s
  /\ handle_activity_stream s activity = s
  /\ on_event s (TaskReorder payload) = s
  /\ on_event s (ActivityStream activity) = s.
Proof. repeat split. Qed.

End ClientFacts.

(** * Properties of the server *)
Section BackendFacts.
Import Backend.

(** ** Handlers touch nothing but the database *)

Lemma same_io_refl (st : Server) : same_io st st.
Proof. repeat split. Qed.

Lemma same_io_trans (a b c : Server) :
  same_io a b -> same_io b c -> same_io a c.
Proof.
  intros (H1 & H2 & H3) (K1 & K2 & K3).
  repeat split; congruence.
Qed.

Lemma same_io_with_db (st : Server) (d : DB) : same_io st (with_db st d).
Proof. repeat split. Qed.

Lemma db_only_ret {A} (a : A) : db_only (ret a).
Proof. intros st. apply same_io_refl. Qed.

Lemma db_only_reply {A} (c : nat) (b : JValue) : db_only (@reply A c b).
Proof. intros st. apply same_io_refl. Qed.

Lemma db_only_throw {A} (e : string) : db_only (@throw A e).
Proof. intros st. apply same_io_refl. Qed.

Lemma db_only_query {A} (q : DB -> A) : db_only (query q).
Proof. intros st. apply same_io_refl. Qed.

Lemma db_only_exec {A} (q : DB -> (A * DB) + string) : db_only (exec q).
Proof.
  intros st. unfold exec. destruct (q (db st)) as [[a d]|e]; simpl.
  - apply same_io_with_db.
  - apply same_io_refl.
Qed.

Lemma db_only_bind {A B} (m : M A) (f : A -> M B) :
  db_only m -> (forall a, db_only (f a)) -> db_only (bind m f).
Proof.
  intros Hm Hf st. unfold bind. specialize (Hm st).
  destruct (m st) as [[a|r|e] st']; simpl in *; try exact Hm.
  eapply same_io_trans; [exact Hm | apply Hf].
Qed.

Lemma db_only_try_catch {A} (m : M A) (h : string -> M A) :
  db_only m -> (forall e, db_only (h e)) -> db_only (try_catch m h).
Proof.
  intros Hm Hh st. unfold try_catch. specialize (Hm st).
  destruct (m st) as [[a|r|e] st']; simpl in *; try exact Hm.
  eapply same_io_trans; [exact Hm | apply Hh].
Qed.

Lemma db_only_insert_tags (task_id : string) (tags : list string) :
  db_only (insert_tags task_id tags).
Proof.
  induction tags as [|tag rest IH]; simpl.
  - apply db_only_ret.
  - apply db_only_bind; [apply db_only_exec | intros _; exact IH].
Qed.

Ltac db_only_step :=
  first
    [ apply db_only_reply | apply db_only_ret | apply db_only_throw
    | apply db_only_query | apply db_only_exec | apply db_only_insert_tags
    | apply db_only_bind; [|intros ?]
    | apply db_only_try_catch; [|intros ?]
    | match goal with
      | |- db_only (match ?x with _ => _ end) => destruct x
      end ].

Lemma handle_db_only (chk : TaskRow -> bool) (dp : string -> bool)
    (r : Request) :
  db_only (handle chk dp r).
Proof.
  destruct r; simpl;
    unfold post_task_status, post_task_comment, post_task_attachment,
      put_task, rollback;
    cbv zeta; repeat db_only_step.
Qed.

(** No endpoint emits: whatever the request and its outcome, the sockets,
    the emissions and the deliveries are those from before. *)
Lemma endpoints_emit_nothing (chk : TaskRow -> bool) (dp : string -> bool)
    (r : Request) (st : Server) :
  same_io st (snd (run (handle chk dp r) st)).
Proof.
  pose proof (handle_db_only chk dp r st) as H. unfold run.
  destruct (handle chk dp r st) as [[a|rp|e] st']; exact H.
Qed.

(** ** Committed writes and events *)

(** C1, at the input where it fails.  With Bob's browser connected to the
    seeded server: Alice's status change of task2, Bob's comment on task1
    and Alice's attachment to task1 each answer 200 and leave their rows
    in the database, and after all three nothing was emitted and nothing
    was delivered.  (By [endpoints_emit_nothing] no endpoint emits on any
    request, so it is also true that nothing is published for a write
    that did not commit.) *)
Theorem committed_writes_publish_no_event :
  let '(r1, st1) :=
    run (post_task_status schema_tasks_check Seed.env1 Seed.alice "task2"
           (Some "Completed")) Seed.bob_online in
  let '(r2, st2) :=
    run (post_task_comment Seed.env1 Seed.bob "task1" "Looks good" None)
      st1 in
  let '(r3, st3) :=
    run (post_task_attachment Seed.env1 Seed.alice "task1"
           (Some Seed.mockup_file)) st2 in
  option_map code r1 = Some 200
  /\ List.map t_status (select_task "task2" (db st1)) = [ "Completed" ]
  /\ option_map code r2 = Some 200
  /\ List.map c_content (comments (db st2)) = [ "Looks good" ]
  /\ option_map code r3 = Some 200
  /\ List.map at_file_url (task_attachments (db st3))
     = [ "/storage/0f3c9a7e5d1b4c2e8a6f" ]
  /\ List.map sid (sockets st3) = [ "k3Jx0aLq9ZtPw2Ym5BnR" ]
  /\ emitted st3 = []
  /\ delivered st3 = [].
Proof. vm_compute. repeat split. Qed.

(** ** Authorisation of a status change *)

(** Who gets past the check of [POST /tasks/:task_id/status], for a valid
    status and an existing task: an Admin, or a caller who is both a
    member and the owner of the task's workspace. *)
Lemma post_task_status_forbidden_iff (chk : TaskRow -> bool) (env : Env)
    (user : User) (task_id status : string) (st : Server)
    (task : TaskRow) (rest : list TaskRow) :
  includes validStatuses status = true ->
  select_task task_id (db st) = task :: rest ->
  run (post_task_status chk env user task_id (Some status)) st
  = (Some {| code := 403; body := message "Forbidden" |}, st)
  <->
  is_admin user = false
  /\ (select_workspace_user (t_workspace_id task) (user_id user) (db st) = []
      \/ no_owner_or_other (select_owner (t_workspace_id task) (db st)) user
         = true).
Proof.
  intros Hv Ht. unfold post_task_status, run, try_catch, bind, query.
  rewrite Hv. simpl. rewrite Ht.
  destruct (is_admin user); simpl.
  - split; [|intros [? _]; discriminate].
    unfold exec, reply. destruct (update_task _ _ _ _ _) as [[u d]|e];
      simpl; intros H; discriminate.
  - destruct (select_workspace_user _ _ _) as [|a l]; simpl.
    + split; [intros _; split; [reflexivity | left; reflexivity] | reflexivity].
    + destruct (no_owner_or_other _ _) eqn:Ho; simpl.
      * split; [intros _; split; [reflexivity | right; reflexivity]
               | reflexivity].
      * split.
        -- unfold exec, reply. destruct (update_task _ _ _ _ _) as [[u d]|e];
             simpl; intros H; discriminate.
        -- intros [_ [H|H]]; discriminate.
Qed.

(** The comment endpoint lets an Admin, a member or the owner through. *)
Lemma post_task_comment_forbidden_iff (env : Env) (user : User)
    (task_id content : string) (mentions : option (list string))
    (st : Server) (task : TaskRow) (rest : list TaskRow)
    (w : WorkspaceRow) (ws : list WorkspaceRow) :
  select_task task_id (db st) = task :: rest ->
  select_owner (t_workspace_id task) (db st) = w :: ws ->
  run (post_task_comment env user task_id content mentions) st
  = (Some {| code := 403; body := message "Access denied" |}, st)
  <->
  is_admin user = false
  /\ select_workspace_user (t_workspace_id task) (user_id user) (db st) = []
  /\ w_owner_id w <> user_id user.
Proof.
  intros Ht Hw. unfold post_task_comment, run, try_catch, bind, query.
  simpl. rewrite Ht, Hw.
  destruct (is_admin user); simpl.
  - split; [intros H; discriminate | intros [? _]; discriminate].
  - destruct (select_workspace_user _ _ _) as [|a l]; simpl.
    + destruct (String.eqb (w_owner_id w) (user_id user)) eqn:E; simpl.
      * apply String.eqb_eq in E.
        split; [intros H; discriminate | intros (_ & _ & H); congruence].
      * apply String.eqb_neq in E.
        split; [intros _; repeat split; assumption | reflexivity].
    + split; [intros H; discriminate | intros (_ & H & _); discriminate].
Qed.

(** C7, at the input where it fails: Bob is a member of workspace1 (role
    Team Member there, not its owner, not an Admin); his status change of
    task1, a task of workspace1, with a valid status is answered 403
    Forbidden and changes nothing, while his comment on the same task
    goes through. *)
Theorem member_status_change_is_forbidden :
  includes validStatuses "Completed" = true
  /\ is_admin Seed.bob = false
  /\ List.map wu_role (select_workspace_user "workspace1" "user2" Seed.seed_db)
     = [ "Team Member" ]
  /\ List.map w_owner_id (select_owner "workspace1" Seed.seed_db)
     = [ "user1" ]
  /\ run (post_task_status schema_tasks_check Seed.env1 Seed.bob "task1"
            (Some "Completed")) Seed.bob_online
     = (Some {| code := 403; body := message "Forbidden" |}, Seed.bob_online)
  /\ option_map code
       (fst (run (post_task_comment Seed.env1 Seed.bob "task1" "Done" None)
               Seed.bob_online))
     = Some 200.
Proof. vm_compute. repeat split. Qed.

(** ** Validation of the status *)

(** [POST /tasks/:task_id/status] answers 400 to a status outside
    [validStatuses], or to none, before it reads or writes anything. *)
Lemma post_task_status_rejects_unknown_status (chk : TaskRow -> bool)
    (env : Env) (user : User) (task_id : string) (status : option string)
    (st : Server) :
  match status with
  | Some s => includes validStatuses s = false
  | None => True
  end ->
  run (post_task_status chk env user task_id status) st
  = (Some {| code := 400; body := message "Invalid status" |}, st).
Proof.
  intros H. unfold post_task_status. destruct status as [s|].
  - rewrite H. reflexivity.
  - reflexivity.
Qed.

(** C8, at the input where it fails: [PUT /tasks/task1] by Bob with the
    status "Bogus", which is not in the closed set.  The handler does not
    check the status: it issues the UPDATE.  Whatever row constraint
    [chk] the table has, the answer is not the 400 of a validation error:
    if the constraint lets the row through, the answer is 200 and task1
    is stored with status "Bogus"; if it refuses the row (as the schema's
    CHECK does), the answer is 500 "Error updating task". *)
Theorem put_task_does_not_validate_status (chk : TaskRow -> bool)
    (dp : string -> bool) :
  let '(r, st') :=
    run (put_task chk dp Seed.env1 Seed.bob "task1"
           (Seed.body_status "Bogus")) Seed.bob_online in
  includes validStatuses "Bogus" = false
  /\ option_map code r <> Some 400
  /\ if chk (set_columns (only_status "Bogus")
              (current_timestamp Seed.env1) Seed.task1)
     then option_map code r = Some 200
          /\ List.map t_status (select_task "task1" (db st')) = [ "Bogus" ]
     else r = Some {| code := 500;
                      body := message_error "Error updating task"
                        "new row for relation tasks violates check constraint"
                   |}
          /\ st' = Seed.bob_online.
Proof.
  unfold run, put_task, try_catch, bind, query, exec, update_task, rollback.
  simpl.
  destruct (chk _) eqn:E; simpl; rewrite ?E; simpl.
  - repeat split. discriminate.
  - repeat split. discriminate.
Qed.

(** ** Wire names and payloads *)

(** What [broadcastTaskStatusUpdate] hands to [io], on every server. *)
Lemma broadcastTaskStatusUpdate_emits (env : Env) (task_id new_status : string)
    (st : Server) :
  emitted (broadcastTaskStatusUpdate env task_id new_status st)
  = emitted st ++
    [ {| em_room := "task/status/updated";
         em_event := "task/status/updated";
         em_message := JObj [ ("task_id", JStr task_id);
                              ("new_status", JStr new_status);
                              ("timestamp", JStr (js_now env)) ] |} ].
Proof. reflexivity. Qed.

(** C2, at the input where it fails: the status broadcast for task1 and
    "In Progress".  The one event the server emits is named
    [task/status/updated], which is not among the names the client store
    listens to, and its payload has the keys task_id, new_status,
    timestamp: it has no [status] property, which the handler's payload
    type names.  Of the five channels the server broadcasts on, the
    client listens to [activity/stream] alone. *)
Theorem status_broadcast_name_and_payload_mismatch :
  let st := broadcastTaskStatusUpdate Seed.env1 "task1" "In Progress"
              Seed.bob_online in
  List.map em_event (emitted st) = [ "task/status/updated" ]
  /\ List.map em_event (emitted st)
     <> [ Client.event_name
           (Client.TaskStatusUpdated
              {| Client.sp_task_id := "task1";
                 Client.sp_status := "In Progress";
                 Client.sp_timestamp := js_now Seed.env1 |}) ]
  /\ includes Client.socket_listeners "task/status/updated" = false
  /\ List.map (fun e => jkeys (em_message e)) (emitted st)
     = [ [ "task_id"; "new_status"; "timestamp" ] ]
  /\ List.map (fun e => jkeys (em_message e)) (emitted st)
     <> [ Client.status_payload_keys ]
  /\ List.filter (includes Client.socket_listeners) broadcast_channels
     = [ "activity/stream" ].
Proof. vm_compute. repeat split; discriminate. Qed.

(** ** Addressing *)

Lemma channel_not_in_room (s : Socket) (c : string) :
  rooms_ok s -> In c broadcast_channels -> in_room c s = false.
Proof.
  intros [Hlen Hrooms] Hc. unfold in_room.
  induction Hrooms as [|r rs Hr _ IH]; [reflexivity|].
  simpl. rewrite IH, orb_false_r.
  destruct Hr as [-> | [uid ->]].
  - apply String.eqb_neq. intros E. rewrite E in Hlen.
    simpl in Hc. repeat destruct Hc as [<- | Hc]; try discriminate Hlen.
    exact Hc.
  - simpl in Hc. repeat destruct Hc as [<- | Hc]; try reflexivity.
    destruct Hc.
Qed.

Lemma no_recipient_on_channel (st : Server) (c : string) :
  Forall rooms_ok (sockets st) -> In c broadcast_channels ->
  recipients c st = [].
Proof.
  intros H Hc. unfold recipients.
  induction H as [|s l Hs _ IH]; [reflexivity|].
  simpl. rewrite (channel_not_in_room s c Hs Hc). exact IH.
Qed.

Lemma broadcast_channel (b : Broadcast) (st : Server) :
  exists c msg, In c broadcast_channels /\ broadcast b st = emit_to c c msg st.
Proof.
  destruct b; simpl; eexists; eexists; (split; [|reflexivity]); simpl; auto 6.
Qed.

Lemma Forall_rooms_ok_filter (p : Socket -> bool) (l : list Socket) :
  Forall rooms_ok l -> Forall rooms_ok (List.filter p l).
Proof.
  induction 1 as [|s l Hs _ IH]; simpl; [constructor|].
  destruct (p s); [constructor|]; assumption.
Qed.

Lemma Forall_rooms_ok_update (id : string) (f : Socket -> Socket)
    (l : list Socket) :
  (forall s, rooms_ok s -> rooms_ok (f s)) ->
  Forall rooms_ok l ->
  Forall rooms_ok
    (List.map (fun s => if String.eqb (sid s) id then f s else s) l).
Proof.
  intros Hf. induction 1 as [|s l Hs _ IH]; simpl; constructor; auto.
  destruct (String.eqb (sid s) id); auto.
Qed.

Lemma connect_rooms_ok (verify : string -> option User) (id : string)
    (token : option string) (st : Server) :
  String.length id = 20 ->
  Forall rooms_ok (sockets st) ->
  Forall rooms_ok (sockets (connect verify id token st)).
Proof.
  intros Hlen H.
  assert (Ha : Forall rooms_ok (sockets (accept id st))).
  { simpl. apply Forall_app. split; [exact H|].
    constructor; [|constructor]. split; [exact Hlen|].
    constructor; [left; reflexivity | constructor]. }
  unfold connect, on_connection.
  destruct token as [t|]; [|now apply Forall_rooms_ok_filter].
  destruct (String.eqb t ""); [now apply Forall_rooms_ok_filter|].
  destruct (verify t) as [u|]; [|now apply Forall_rooms_ok_filter].
  unfold socket_join, set_data_user, update_socket. cbn [sockets with_sockets].
  apply Forall_rooms_ok_update.
  - intros s [Hl Hr]. split; [exact Hl|]. cbn [rooms sid].
    destruct (includes (rooms s) _); [exact Hr|].
    apply Forall_app. split; [exact Hr|].
    constructor; [right; eexists; reflexivity | constructor].
  - apply Forall_rooms_ok_update; [|exact Ha].
    intros s Hs. exact Hs.
Qed.

(** In every reachable state the sockets are in no room but their own and
    per-user ones, and nothing was delivered. *)
Lemma reachable_invariant (chk : TaskRow -> bool) (dp : string -> bool)
    (verify : string -> option User) (st : Server) :
  reachable chk dp verify st ->
  Forall rooms_ok (sockets st) /\ delivered st = [].
Proof.
  induction 1 as [d | a st Hst [IHs IHd] Hok].
  - split; [constructor | reflexivity].
  - destruct a as [id token | id | r | b]; simpl in *.
    + apply andb_true_iff in Hok as [Hlen _]. apply Nat.eqb_eq in Hlen.
      split; [now apply connect_rooms_ok|].
      unfold connect, on_connection.
      destruct token as [t|]; [|exact IHd].
      destruct (String.eqb t ""); [exact IHd|].
      destruct (verify t); exact IHd.
    + split; [now apply Forall_rooms_ok_filter | exact IHd].
    + destruct (endpoints_emit_nothing chk dp r st) as (Hs & _ & Hd).
      rewrite Hs, Hd. split; assumption.
    + destruct (broadcast_channel b st) as (c & msg & Hc & ->).
      split; [exact IHs|]. simpl.
      rewrite IHd, (no_recipient_on_channel st c IHs Hc). reflexivity.
Qed.

(** C6, where it fails: in every state the server can reach by
    handshakes, disconnections, requests to the endpoints and calls of
    the broadcast functions, no socket was sent anything.  A broadcast
    goes to the room named like its channel; sockets are only ever in
    the room of their own id and in [user_<user_id>], so the audience of
    every task-scoped event is empty, whoever is connected. *)
Theorem broadcasts_reach_no_session (chk : TaskRow -> bool)
    (dp : string -> bool) (verify : string -> option User) (st : Server) :
  reachable chk dp verify st -> delivered st = [].
Proof. intros H. apply (reachable_invariant chk dp verify st H). Qed.

Lemma broadcasts_reach_no_session_witness :
  let st := perform schema_tasks_check (fun _ => true) Seed.verify
              (Call (TaskStatusUpdate Seed.env1 "task1" "In Progress"))
              Seed.bob_online in
  List.map (fun s => option_map user_id (data_user s)) (sockets st)
  = [ Some "user2" ]
  /\ List.map em_event (emitted st) = [ "task/status/updated" ]
  /\ delivered st = [].
Proof.
  split; [reflexivity|]. split; [reflexivity|].
  apply (broadcasts_reach_no_session schema_tasks_check (fun _ => true)
           Seed.verify).
  apply reachable_step; [|reflexivity].
  apply (reachable_step schema_tasks_check (fun _ => true) Seed.verify
           (Connect "k3Jx0aLq9ZtPw2Ym5BnR" (Some "jwt-user2"))
           (initial_server Seed.seed_db)); [|reflexivity].
  apply reachable_init.
Defined.

(** ** The connection handshake *)

Lemma filter_other_ids (id : string) (l : list Socket) :
  ~ In id (List.map sid l) ->
  List.filter (fun s => negb (String.eqb (sid s) id)) l = l.
Proof.
  induction l as [|s l IH]; simpl; intros H; [reflexivity|].
  destruct (String.eqb (sid s) id) eqn:E.
  - apply String.eqb_eq in E. exfalso. apply H. left. exact E.
  - simpl. f_equal. apply IH. intros K. apply H. right. exact K.
Qed.

Lemma update_other_ids (id : string) (f : Socket -> Socket)
    (l : list Socket) :
  ~ In id (List.map sid l) ->
  List.map (fun s => if String.eqb (sid s) id then f s else s) l = l.
Proof.
  induction l as [|s l IH]; simpl; intros H; [reflexivity|].
  destruct (String.eqb (sid s) id) eqn:E.
  - apply String.eqb_eq in E. exfalso. apply H. left. exact E.
  - f_equal. apply IH. intros K. apply H. right. exact K.
Qed.

(** Disconnecting the socket that was just accepted restores the state. *)
Lemma disconnect_accepted (id : string) (st : Server) :
  ~ In id (List.map sid (sockets st)) ->
  socket_disconnect id (accept id st) = st.
Proof.
  intros H. unfold socket_disconnect, accept, with_sockets. simpl.
  rewrite List.filter_app, (filter_other_ids id _ H). simpl.
  rewrite String.eqb_refl. simpl. rewrite app_nil_r.
  destruct st; reflexivity.
Qed.

(** A verified handshake adds one socket: it carries the decoded user and
    is in that user's room. *)
Lemma connect_verified (verify : string -> option User) (id t : string)
    (u : User) (st : Server) :
  ~ In id (List.map sid (sockets st)) ->
  String.eqb t "" = false ->
  verify t = Some u ->
  exists s,
    sockets (connect verify id (Some t) st) = sockets st ++ [s]
    /\ sid s = id
    /\ data_user s = Some u
    /\ in_room (String.append "user_" (user_id u)) s = true.
Proof.
  intros H Ht Hv. unfold connect, on_connection. rewrite Ht, Hv.
  unfold socket_join, set_data_user, update_socket, accept.
  cbn [sockets with_sockets].
  rewrite !List.map_app, !(update_other_ids id _ _ H).
  cbn [List.map sid]. rewrite String.eqb_refl. cbn [sid].
  rewrite String.eqb_refl.
  eexists. split; [reflexivity|]. cbn [sid data_user rooms].
  split; [reflexivity|]. split; [reflexivity|].
  unfold in_room. cbn [rooms].
  destruct (includes [id] _) eqn:E; [exact E|].
  simpl. rewrite String.eqb_refl. apply orb_true_r.
Qed.

(** C9: a handshake of a new socket whose token is absent, empty, or
    refused by [jwt.verify] ends with the socket disconnected and the
    server as it was before: no socket of that id is left, in no room, so
    no emission to any room reaches it.  And a socket that is there after
    a handshake and was not before carries a user that [jwt.verify]
    returned for the presented token. *)
Theorem handshake_needs_verified_credential
    (verify : string -> option User) (id : string) (token : option string)
    (st : Server) :
  ~ In id (List.map sid (sockets st)) ->
  let st' := connect verify id token st in
  ((token = None \/ token = Some ""
    \/ exists t, token = Some t /\ verify t = None) ->
   st' = st
   /\ forall room, ~ In id (List.map sid (recipients room st')))
  /\ (forall s, In s (sockets st') -> ~ In s (sockets st) ->
      exists t u, token = Some t /\ t <> "" /\ verify t = Some u
                  /\ data_user s = Some u).
Proof.
  intros Hfresh st'.
  assert (Hrej : forall room, st' = st ->
                 ~ In id (List.map sid (recipients room st'))).
  { intros room -> K. apply Hfresh. unfold recipients in K.
    apply List.in_map_iff in K as (s & Hs & Hin).
    apply List.filter_In in Hin as [Hin _].
    apply List.in_map_iff. exists s. split; assumption. }
  assert (Hcases :
    st' = st
    \/ exists t u, token = Some t /\ t <> "" /\ verify t = Some u).
  { subst st'. unfold connect, on_connection.
    destruct token as [t|]; [|left; now apply disconnect_accepted].
    destruct (String.eqb t "") eqn:Ht; [left; now apply disconnect_accepted|].
    destruct (verify t) as [u|] eqn:Hv; [|left; now apply disconnect_accepted].
    right. exists t, u. apply String.eqb_neq in Ht. auto. }
  split.
  - intros Hbad.
    destruct Hcases as [E | (t & u & -> & Ht & Hv)].
    + split; [exact E | intros room; now apply Hrej].
    + exfalso. destruct Hbad as [K | [K | (t' & K & Hv')]].
      * discriminate.
      * injection K as ->. now apply Ht.
      * injection K as <-. congruence.
  - intros s Hin Hnew.
    destruct Hcases as [E | (t & u & -> & Ht & Hv)].
    + rewrite E in Hin. contradiction.
    + exists t, u. repeat split; try assumption.
      apply String.eqb_neq in Ht.
      destruct (connect_verified verify id t u st Hfresh Ht Hv)
        as (s' & Hs' & _ & Hu & _).
      subst st'. rewrite Hs' in Hin. apply List.in_app_iff in Hin as [K|K].
      * contradiction.
      * destruct K as [<- | []]. exact Hu.
Qed.

Lemma handshake_needs_verified_credential_witness :
  connect Seed.verify "Zq8wLm2Xc7Vb1Nn4Kj6H" (Some "forged-token")
    Seed.bob_online = Seed.bob_online
  /\ connect Seed.verify "Zq8wLm2Xc7Vb1Nn4Kj6H" None Seed.bob_online
     = Seed.bob_online.
Proof.
  assert (Hfresh : ~ In "Zq8wLm2Xc7Vb1Nn4Kj6H"
                     (List.map sid (sockets Seed.bob_online))).
  { simpl. intros [H | []]. discriminate H. }
  split.
  - apply (handshake_needs_verified_credential Seed.verify
             "Zq8wLm2Xc7Vb1Nn4Kj6H" (Some "forged-token") Seed.bob_online
             Hfresh).
    right. right. exists "forged-token". split; reflexivity.
  - apply (handshake_needs_verified_credential Seed.verify
             "Zq8wLm2Xc7Vb1Nn4Kj6H" None Seed.bob_online Hfresh).
    left. reflexivity.
Defined.

End BackendFacts.

(** * Further properties of the client store *)
Section ClientMerge.
Import Client.


Lemma findIndex_all_false {A} (p : A -> bool) (l : list A) :
  (forall x, In x l -> p x = false) -> findIndex p l = None.
Proof.
  induction l as [|y l IH]; simpl; intros H; [reflexivity|].
  rewrite (H y (or_introl eq_refl)), IH; [reflexivity|].
  intros x Hx. apply H. right. exact Hx.
Qed.

(** Replacing an element by one the predicate treats alike does not move
    the first match. *)
Lemma findIndex_insert_alike {A} (p : A -> bool) (l : list A) (i : nat)
    (x y : A) :
  l !! i = Some x -> p y = p x -> findIndex p (<[i := y]> l) = findIndex p l.
Proof.
  revert i. induction l as [|z l IH]; intros [|i] Hx Hp; simpl in *;
    try discriminate.
  - injection Hx as ->. rewrite Hp. reflexivity.
  - rewrite (IH i Hx Hp). reflexivity.
Qed.

Lemma map_insert_alike {A B} (f : A -> B) (l : list A) (i : nat) (x y : A) :
  l !! i = Some x -> f y = f x -> List.map f (<[i := y]> l) = List.map f l.
Proof.
  revert i. induction l as [|z l IH]; intros [|i] Hx Hf; simpl in *;
    try discriminate.
  - injection Hx as ->. rewrite Hf. reflexivity.
  - rewrite (IH i Hx Hf). reflexivity.
Qed.

(** X1: every realtime event but [comment_created] is idempotent: the
    listener applied twice to the same event leaves the store that one
    application leaves. *)
Theorem events_but_comment_created_are_idempotent (s : AppState)
    (e : SocketEvent) :
  (forall c, e <> CommentCreated c) ->
  on_event (on_event s e) e = on_event s e.
Proof.
  intros H. destruct e as [n | c | p | r | a]; simpl.
  - apply handle_notification_update_idempotent.
  - exfalso. apply (H c). reflexivity.
  - apply handle_task_status_updated_idempotent.
  - reflexivity.
  - reflexivity.
Qed.

Lemma events_but_comment_created_are_idempotent_witness :
  on_event (on_event Seed.store1 (TaskStatusUpdated Seed.stale_event))
    (TaskStatusUpdated Seed.stale_event)
  = on_event Seed.store1 (TaskStatusUpdated Seed.stale_event).
Proof.
  apply (events_but_comment_created_are_idempotent Seed.store1
           (TaskStatusUpdated Seed.stale_event)).
  intros c H. discriminate H.
Defined.

(** X2: [notification_update] is an upsert by [notification_id].  After
    the handler the first notification with the payload's id is the
    payload; every other position holds what it held; the list grew by
    one exactly when the id was new. *)
Theorem notification_update_upserts (s : AppState) (payload : Notification) :
  let same n := String.eqb (notification_id n) (notification_id payload) in
  let s' := handle_notification_update s payload in
  exists i,
    findIndex same (notifications s') = Some i
    /\ notifications s' !! i = Some payload
    /\ (forall j, j <> i -> notifications s' !! j = notifications s !! j)
    /\ length (notifications s')
       = match findIndex same (notifications s) with
         | Some _ => length (notifications s)
         | None => S (length (notifications s))
         end.
Proof.
  intros same s'. subst s'. unfold handle_notification_update. fold same.
  assert (Hp : same payload = true) by apply String.eqb_refl.
  destruct (findIndex same (notifications s)) as [i|] eqn:Hi; simpl.
  - destruct (findIndex_lookup _ _ _ Hi) as (x & Hx & _).
    exists i. split; [|split; [|split]].
    + now apply findIndex_insert.
    + apply list_lookup_insert_eq. eapply lookup_lt_Some; eassumption.
    + intros j Hj. apply list_lookup_insert_ne. congruence.
    + apply length_insert.
  - exists (length (notifications s)). split; [|split; [|split]].
    + now apply findIndex_push.
    + rewrite lookup_app_r by lia. rewrite Nat.sub_diag. reflexivity.
    + intros j Hj. destruct (Nat.lt_ge_cases j (length (notifications s))).
      * now rewrite lookup_app_l.
      * rewrite (lookup_ge_None_2 (notifications s)) by lia.
        apply lookup_ge_None_2. rewrite length_app. simpl. lia.
    + rewrite length_app. simpl. lia.
Qed.



(** X4: for two [task_status_updated] events about the same task, the
    one applied last wins: the store after both is the store after the
    second alone, in whatever order their timestamps are. *)
Theorem status_event_last_applied_wins (s : AppState)
    (p1 p2 : StatusPayload) :
  sp_task_id p1 = sp_task_id p2 ->
  handle_task_status_updated (handle_task_status_updated s p1) p2
  = handle_task_status_updated s p2.
Proof.
  intros Hid.
  set (s1 := handle_task_status_updated s p1).
  pose proof (handle_task_status_updated_frame s p1) as F1.
  pose proof (handle_task_status_updated_frame s1 p2) as F2.
  pose proof (handle_task_status_updated_frame s p2) as F3.
  simpl in F1, F2, F3. fold s1 in F1.
  destruct F1 as (A1 & A2 & A3 & A4 & A5 & A6 & A7 & A8).
  destruct F2 as (B1 & B2 & B3 & B4 & B5 & B6 & B7 & B8).
  destruct F3 as (C1 & C2 & C3 & C4 & C5 & C6 & C7 & C8).
  apply AppState_ext; try congruence.
  - rewrite !handle_task_status_updated_tasks. subst s1.
    rewrite handle_task_status_updated_tasks. rewrite Hid.
    set (p := fun t => String.eqb (task_id t) (sp_task_id p2)).
    destruct (findIndex p (tasks s)) as [i|] eqn:Hi; [|now rewrite Hi].
    destruct (findIndex_lookup _ _ _ Hi) as (t & Ht & Hpt). rewrite Ht.
    rewrite (findIndex_insert p _ _
               (spread_status t (sp_status p1) (sp_timestamp p1)) Hi Hpt).
    rewrite list_lookup_insert_eq by (eapply lookup_lt_Some; eassumption).
    apply list_insert_insert_eq.
  - rewrite !handle_task_status_updated_current_task. subst s1.
    rewrite handle_task_status_updated_current_task. rewrite Hid.
    destruct (current_task s) as [ct|]; [|reflexivity].
    destruct (String.eqb (task_id ct) (sp_task_id p2)) eqn:E.
    + simpl. rewrite E. reflexivity.
    + rewrite E. reflexivity.
Qed.

Lemma status_event_last_applied_wins_witness :
  handle_task_status_updated
    (handle_task_status_updated Seed.store1
       {| sp_task_id := "task1"; sp_status := "On Hold";
          sp_timestamp := "2024-05-04T08:00:00.000Z" |})
    Seed.stale_event
  = handle_task_status_updated Seed.store1 Seed.stale_event.
Proof.
  apply (status_event_last_applied_wins Seed.store1
           {| sp_task_id := "task1"; sp_status := "On Hold";
              sp_timestamp := "2024-05-04T08:00:00.000Z" |}
           Seed.stale_event).
  reflexivity.
Defined.

(** X5: [task_status_updated] events about different tasks commute: the
    store after both does not depend on the order of arrival. *)
Theorem status_events_of_different_tasks_commute (s : AppState)
    (p1 p2 : StatusPayload) :
  sp_task_id p1 <> sp_task_id p2 ->
  handle_task_status_updated (handle_task_status_updated s p1) p2
  = handle_task_status_updated (handle_task_status_updated s p2) p1.
Proof.
  intros Hne.
  pose proof (handle_task_status_updated_frame s p1) as F1.
  pose proof (handle_task_status_updated_frame
                (handle_task_status_updated s p1) p2) as F2.
  pose proof (handle_task_status_updated_frame s p2) as F3.
  pose proof (handle_task_status_updated_frame
                (handle_task_status_updated s p2) p1) as F4.
  simpl in F1, F2, F3, F4.
  destruct F1 as (A1 & A2 & A3 & A4 & A5 & A6 & A7 & A8).
  destruct F2 as (B1 & B2 & B3 & B4 & B5 & B6 & B7 & B8).
  destruct F3 as (C1 & C2 & C3 & C4 & C5 & C6 & C7 & C8).
  destruct F4 as (D1 & D2 & D3 & D4 & D5 & D6 & D7 & D8).
  apply AppState_ext; try congruence.
  - rewrite !handle_task_status_updated_tasks.
    set (q1 := fun t => String.eqb (task_id t) (sp_task_id p1)).
    set (q2 := fun t => String.eqb (task_id t) (sp_task_id p2)).
    destruct (findIndex q1 (tasks s)) as [i1|] eqn:H1;
      destruct (findIndex q2 (tasks s)) as [i2|] eqn:H2.
    + destruct (findIndex_lookup _ _ _ H1) as (t1 & Ht1 & Hq1).
      destruct (findIndex_lookup _ _ _ H2) as (t2 & Ht2 & Hq2).
      rewrite Ht1, Ht2.
      assert (Hi : i1 <> i2).
      { intros ->. rewrite Ht1 in Ht2. injection Ht2 as ->.
        apply String.eqb_eq in Hq1, Hq2. congruence. }
      rewrite (findIndex_insert_alike q2 _ i1 t1
                 (spread_status t1 (sp_status p1) (sp_timestamp p1))
                 Ht1 eq_refl), H2.
      rewrite (findIndex_insert_alike q1 _ i2 t2
                 (spread_status t2 (sp_status p2) (sp_timestamp p2))
                 Ht2 eq_refl), H1.
      rewrite list_lookup_insert_ne by congruence. rewrite Ht2.
      rewrite list_lookup_insert_ne by congruence. rewrite Ht1.
      apply list_insert_insert_ne. congruence.
    + destruct (findIndex_lookup _ _ _ H1) as (t1 & Ht1 & Hq1).
      rewrite Ht1.
      rewrite (findIndex_insert_alike q2 _ i1 t1
                 (spread_status t1 (sp_status p1) (sp_timestamp p1))
                 Ht1 eq_refl).
      rewrite ?H1, ?H2, ?Ht1. reflexivity.
    + destruct (findIndex_lookup _ _ _ H2) as (t2 & Ht2 & Hq2).
      rewrite Ht2.
      rewrite (findIndex_insert_alike q1 _ i2 t2
                 (spread_status t2 (sp_status p2) (sp_timestamp p2))
                 Ht2 eq_refl).
      rewrite ?H1, ?H2, ?Ht2. reflexivity.
    + rewrite ?H1, ?H2. reflexivity.
  - rewrite !handle_task_status_updated_current_task.
    destruct (current_task s) as [ct|]; [|reflexivity].
    destruct (String.eqb (task_id ct) (sp_task_id p1)) eqn:E1;
      destruct (String.eqb (task_id ct) (sp_task_id p2)) eqn:E2;
      simpl; rewrite ?E1, ?E2; try reflexivity.
    apply String.eqb_eq in E1, E2. congruence.
Qed.

Lemma status_events_of_different_tasks_commute_witness :
  handle_task_status_updated
    (handle_task_status_updated Seed.store1 Seed.stale_event)
    {| sp_task_id := "task2"; sp_status := "Completed";
       sp_timestamp := "2024-05-05T08:00:00.000Z" |}
  = handle_task_status_updated
      (handle_task_status_updated Seed.store1
         {| sp_task_id := "task2"; sp_status := "Completed";
            sp_timestamp := "2024-05-05T08:00:00.000Z" |})
      Seed.stale_event.
Proof.
  apply (status_events_of_different_tasks_commute Seed.store1
           Seed.stale_event
           {| sp_task_id := "task2"; sp_status := "Completed";
              sp_timestamp := "2024-05-05T08:00:00.000Z" |}).
  intros H. discriminate H.
Defined.

(** X6: a [task_status_updated] event never adds, drops or reorders
    cached tasks and never changes which task is open: the sequence of
    [task_id]s in [tasks] and the [task_id] of [current_task] are what
    they were; and a status event for a task that is neither cached nor
    open leaves the whole store as it was. *)
Theorem status_event_keeps_task_identities (s : AppState)
    (payload : StatusPayload) :
  let s' := handle_task_status_updated s payload in
  List.map task_id (tasks s') = List.map task_id (tasks s)
  /\ option_map task_id (current_task s') = option_map task_id (current_task s)
  /\ ((forall t, In t (tasks s) -> task_id t <> sp_task_id payload) ->
      (forall ct, current_task s = Some ct ->
                  task_id ct <> sp_task_id payload) ->
      s' = s).
Proof.
  intros s'. subst s'. split; [|split].
  - rewrite handle_task_status_updated_tasks.
    destruct (findIndex _ (tasks s)) as [i|] eqn:Hi; [|reflexivity].
    destruct (tasks s !! i) as [t|] eqn:Ht; [|reflexivity].
    now apply (map_insert_alike task_id _ i t).
  - rewrite handle_task_status_updated_current_task.
    destruct (current_task s) as [ct|]; [|reflexivity].
    destruct (String.eqb _ _); reflexivity.
  - intros Hl Hc. unfold handle_task_status_updated.
    rewrite findIndex_all_false.
    + destruct (current_task s) as [ct|] eqn:Hct; [|reflexivity].
      destruct (String.eqb (task_id ct) (sp_task_id payload)) eqn:E;
        [|reflexivity].
      apply String.eqb_eq in E. now destruct (Hc ct eq_refl).
    + intros t Ht. apply String.eqb_neq. now apply Hl.
Qed.

Lemma status_event_keeps_task_identities_witness :
  handle_task_status_updated Seed.store1
    {| sp_task_id := "task9"; sp_status := "Completed";
       sp_timestamp := "2024-05-05T08:00:00.000Z" |}
  = Seed.store1.
Proof.
  apply (status_event_keeps_task_identities Seed.store1
           {| sp_task_id := "task9"; sp_status := "Completed";
              sp_timestamp := "2024-05-05T08:00:00.000Z" |}).
  - intros t [<- | []]. discriminate.
  - intros ct H. injection H as <-. discriminate.
Defined.

(** X7: a [comment_created] event touches the comment sequence of the
    open task and nothing else.  In particular [tasks] is unchanged: the
    copy of the same task in the task list does not get the comment.
    The open task keeps every other field, and its comment sequence is
    the old one, or the old one followed by the payload. *)
Theorem comment_created_touches_open_task_only (s : AppState)
    (payload : Comment) :
  let s' := handle_comment_created s payload in
  tasks s' = tasks s
  /\ notifications s' = notifications s
  /\ auth_token s' = auth_token s
  /\ current_user s' = current_user s
  /\ workspaces s' = workspaces s
  /\ selected_workspace s' = selected_workspace s
  /\ user_preferences s' = user_preferences s
  /\ socket s' = socket s
  /\ socket_connected s' = socket_connected s
  /\ match current_task s with
     | None => current_task s' = None
     | Some ct =>
         exists cs,
           current_task s' = Some (spread_comments ct cs)
           /\ (cs = comments ct \/ cs = comments ct ++ [ payload ])
     end.
Proof.
  intros s'. subst s'. unfold handle_comment_created.
  destruct (current_task s) as [ct|] eqn:Hct.
  - destruct (comment_task_id payload) as [tid|];
      [destruct (String.eqb (task_id ct) tid)|]; simpl;
      repeat (split; [reflexivity|]).
    + eexists. split; [reflexivity | right; reflexivity].
    + exists (comments ct). rewrite Hct.
      split; [destruct ct; reflexivity | left; reflexivity].
    + exists (comments ct). rewrite Hct.
      split; [destruct ct; reflexivity | left; reflexivity].
  - repeat (split; [reflexivity|]). exact Hct.
Qed.

(** X8: events of different kinds commute: a notification update, a
    created comment and a status update can be applied in any order
    with the same resulting store. *)
Theorem events_of_different_kinds_commute (s : AppState)
    (n : Notification) (c : Comment) (p : StatusPayload) :
  handle_comment_created (handle_notification_update s n) c
  = handle_notification_update (handle_comment_created s c) n
  /\ handle_task_status_updated (handle_notification_update s n) p
     = handle_notification_update (handle_task_status_updated s p) n
  /\ handle_task_status_updated (handle_comment_created s c) p
     = handle_comment_created (handle_task_status_updated s p) c.
Proof.
  unfold handle_task_status_updated, handle_comment_created,
    handle_notification_update.
  destruct (findIndex _ (notifications s)) as [k|] eqn:Hn;
    (destruct (findIndex _ (tasks s)) as [i|] eqn:Hi;
     [destruct (tasks s !! i) as [t|] eqn:Ht|]);
    (destruct (current_task s) as [ct|] eqn:Hct;
     [destruct (String.eqb (task_id ct) (sp_task_id p)) eqn:E;
      (destruct (comment_task_id c) as [tid|] eqn:Hc;
       [destruct (String.eqb (task_id ct) tid) eqn:Et|])|]);
    repeat split;
    repeat (simpl; match goal with H : _ = _ |- _ => rewrite H end);
    reflexivity.
Qed.

End ClientMerge.

(** * Further properties of the server *)

(** ** What the endpoints can do to the database *)
Section Keeps.
Import Backend Api.

Variable R : DB -> DB -> Prop.
Hypothesis R_refl : forall d, R d d.
Hypothesis R_trans : forall a b c, R a b -> R b c -> R a c.

Lemma keeps_ret {A} (a : A) : keeps R (ret a).
Proof. intros st. apply R_refl. Qed.

Lemma keeps_reply {A} (c : nat) (b : JValue) : keeps R (@reply A c b).
Proof. intros st. apply R_refl. Qed.

Lemma keeps_throw {A} (e : string) : keeps R (@throw A e).
Proof. intros st. apply R_refl. Qed.

Lemma keeps_query {A} (q : DB -> A) : keeps R (query q).
Proof. intros st. apply R_refl. Qed.

Lemma keeps_exec {A} (q : DB -> (A * DB) + string) :
  (forall d a d', q d = inl (a, d') -> R d d') -> keeps R (exec q).
Proof.
  intros H st. unfold exec. destruct (q (db st)) as [[a d']|e] eqn:E; simpl.
  - apply (H _ _ _ E).
  - apply R_refl.
Qed.

Lemma keeps_bind {A B} (m : M A) (f : A -> M B) :
  keeps R m -> (forall a, keeps R (f a)) -> keeps R (bind m f).
Proof.
  intros Hm Hf st. unfold bind. specialize (Hm st).
  destruct (m st) as [[a|r|e] st']; simpl in *; try exact Hm.
  eapply R_trans; [exact Hm | apply Hf].
Qed.

Lemma keeps_try_catch {A} (m : M A) (h : string -> M A) :
  keeps R m -> (forall e, keeps R (h e)) -> keeps R (try_catch m h).
Proof.
  intros Hm Hh st. unfold try_catch. specialize (Hm st).
  destruct (m st) as [[a|r|e] st']; simpl in *; try exact Hm.
  eapply R_trans; [exact Hm | apply Hh].
Qed.

Lemma keeps_run (m : M unit) (st : Server) :
  keeps R m -> R (db st) (db (snd (run m st))).
Proof.
  intros H. specialize (H st). unfold run.
  destruct (m st) as [[a|r|e] st']; exact H.
Qed.

Section Statements.

Variable chk : TaskRow -> bool.
Variable dp : string -> bool.
Variable cascade : bool.

Hypothesis R_update :
  forall u ts id d a d', update_task chk u ts id d = inl (a, d') -> R d d'.
Hypothesis R_activity :
  forall t u x ts d a d',
    insert_task_activity t u x ts d = inl (a, d') -> R d d'.
Hypothesis R_comment :
  forall t u x ms ts d a d',
    insert_comment t u x ms ts d = inl (a, d') -> R d d'.
Hypothesis R_attachment :
  forall t f u ts d a d',
    insert_task_attachment t f u ts d = inl (a, d') -> R d d'.
Hypothesis R_delete_tags :
  forall t d a d', delete_task_tags t d = inl (a, d') -> R d d'.
Hypothesis R_insert_tag :
  forall t g d a d', insert_task_tag t g d = inl (a, d') -> R d d'.

Lemma keeps_insert_tags (task_id : string) (tags : list string) :
  keeps R (insert_tags task_id tags).
Proof.
  induction tags as [|tag rest IH]; simpl.
  - apply keeps_ret.
  - apply keeps_bind; [|intros _; exact IH].
    apply keeps_exec. apply R_insert_tag.
Qed.

Ltac keeps_step :=
  first
    [ apply keeps_reply | apply keeps_ret | apply keeps_throw
    | apply keeps_query | apply keeps_insert_tags
    | apply keeps_exec;
      first [ apply R_update | apply R_activity | apply R_comment
            | apply R_attachment | apply R_delete_tags | apply R_insert_tag ]
    | apply keeps_bind; [|intros ?]
    | apply keeps_try_catch; [|intros ?]
    | match goal with
      | |- keeps R (match ?x with _ => _ end) => destruct x
      end ].

(** The four endpoints of [handle] stay within [R] as soon as each of
    their statements does. *)
Lemma handle_keeps (r : Request) : keeps R (handle chk dp r).
Proof.
  destruct r; simpl;
    unfold post_task_status, post_task_comment, post_task_attachment,
      put_task, rollback;
    cbv zeta; repeat keeps_step.
Qed.

Lemma post_task_keeps (env : Env) (user : User) (b : NewTask) :
  (forall row d a d', insert_task chk row d = inl (a, d') -> R d d') ->
  keeps R (post_task chk dp env user b).
Proof.
  intros R_insert. unfold post_task, begin_, commit, rollback. cbv zeta.
  repeat first [ apply keeps_exec; apply R_insert | keeps_step ].
Qed.

Lemma delete_task_keeps (user : User) (task_id : string) :
  (forall id d a d', delete_task_row cascade id d = inl (a, d') -> R d d') ->
  keeps R (delete_task cascade user task_id).
Proof.
  intros R_delete. unfold delete_task.
  repeat first [ apply keeps_exec; apply R_delete | keeps_step ].
Qed.

End Statements.

End Keeps.

Section DatabaseInvariants.
Import Backend Api.

Ltac statement_cases :=
  unfold update_task, insert_task_activity, insert_comment,
    insert_task_attachment, delete_task_tags, insert_task_tag,
    insert_task, delete_task_row;
  intros;
  repeat match goal with
         | H : (if ?c then _ else _) = inl _ |- _ => destruct c eqn:?
         | H : inl _ = inl _ |- _ => injection H as <- <-
         | H : inr _ = inl _ |- _ => discriminate H
         end.

Lemma same_access_refl (d : DB) : same_access d d.
Proof. split; reflexivity. Qed.

Lemma same_access_trans (a b c : DB) :
  same_access a b -> same_access b c -> same_access a c.
Proof. intros [H1 H2] [K1 K2]. split; congruence. Qed.

(** X9: none of the modelled endpoints (status change, comment,
    attachment, task update, task creation, task deletion) changes a
    workspace or a membership, whatever the request and its outcome: the
    rows the access checks read are out of reach of the callers they
    judge. *)
Theorem endpoints_never_change_access (chk : TaskRow -> bool)
    (dp : string -> bool) (cascade : bool) (st : Server) :
  (forall r, same_access (db st) (db (snd (run (handle chk dp r) st))))
  /\ (forall env user b,
        same_access (db st)
          (db (snd (run (post_task chk dp env user b) st))))
  /\ (forall user task_id,
        same_access (db st)
          (db (snd (run (delete_task cascade user task_id) st)))).
Proof.
  split; [|split]; intros; apply keeps_run;
    try apply same_access_refl; try apply same_access_trans.
  - apply handle_keeps; try apply same_access_refl;
      try apply same_access_trans; statement_cases; split; reflexivity.
  - apply post_task_keeps; try apply same_access_refl;
      try apply same_access_trans; statement_cases; split; reflexivity.
  - apply delete_task_keeps; try apply same_access_refl;
      try apply same_access_trans; statement_cases; split; reflexivity.
Qed.

Lemma map_identity_update (u : TaskUpdate) (ts id : string)
    (l : list TaskRow) :
  List.map task_identity
    (List.map (fun t => if String.eqb (t_id t) id
                        then set_columns u ts t else t) l)
  = List.map task_identity l.
Proof.
  induction l as [|t l IH]; simpl; [reflexivity|].
  rewrite IH. destruct (String.eqb (t_id t) id); reflexivity.
Qed.

(** X10: the status, comment, attachment and update endpoints never add,
    remove or reorder tasks, and never change the id, workspace, creator
    or creation time of a task: an update cannot move a task to another
    workspace. *)
Theorem endpoints_keep_task_identities (chk : TaskRow -> bool)
    (dp : string -> bool) (r : Request) (st : Server) :
  List.map task_identity (tasks (db (snd (run (handle chk dp r) st))))
  = List.map task_identity (tasks (db st)).
Proof.
  apply (keeps_run same_task_identities).
  apply handle_keeps; unfold same_task_identities;
    try (intros; congruence); statement_cases; simpl;
    try reflexivity.
  apply map_identity_update.
Qed.

Lemma logs_grow_refl (d : DB) : logs_grow d d.
Proof. repeat split; exists []; now rewrite app_nil_r. Qed.

Lemma logs_grow_trans (a b c : DB) :
  logs_grow a b -> logs_grow b c -> logs_grow a c.
Proof.
  intros ([l1 H1] & [l2 H2] & [l3 H3]) ([k1 K1] & [k2 K2] & [k3 K3]).
  repeat split.
  - exists (l1 ++ k1). rewrite K1, H1. now rewrite app_assoc.
  - exists (l2 ++ k2). rewrite K2, H2. now rewrite app_assoc.
  - exists (l3 ++ k3). rewrite K3, H3. now rewrite app_assoc.
Qed.

(** X11: under the status, comment, attachment and update endpoints and
    under task creation the activity log, the comments and the
    attachments are append-only: whatever was stored stays, in place and
    in order, and new rows come after. *)
Theorem logs_are_append_only (chk : TaskRow -> bool) (dp : string -> bool)
    (st : Server) :
  (forall r, logs_grow (db st) (db (snd (run (handle chk dp r) st))))
  /\ (forall env user b,
        logs_grow (db st) (db (snd (run (post_task chk dp env user b) st)))).
Proof.
  split; intros; apply keeps_run;
    try apply logs_grow_refl; try apply logs_grow_trans.
  - apply handle_keeps; try apply logs_grow_refl;
      try apply logs_grow_trans; statement_cases; simpl;
      repeat split; simpl;
      first [ exists []; now rewrite app_nil_r | eexists; reflexivity ].
  - apply post_task_keeps; try apply logs_grow_refl;
      try apply logs_grow_trans; statement_cases; simpl;
      repeat split; simpl;
      first [ exists []; now rewrite app_nil_r | eexists; reflexivity ].
Qed.

End DatabaseInvariants.

Section CommentIds.
Import Backend Api.

Lemma NoDup_map_filter {A B} (f : A -> B) (p : A -> bool) (l : list A) :
  List.NoDup (List.map f l) -> List.NoDup (List.map f (List.filter p l)).
Proof.
  induction l as [|x l IH]; simpl; intros H; [constructor|].
  apply List.NoDup_cons_iff in H as [Hx Hl].
  destruct (p x); simpl; [|now apply IH].
  constructor; [|now apply IH].
  intros K. apply Hx. apply List.in_map_iff in K as (y & <- & Hy).
  apply List.in_map_iff. exists y. split; [reflexivity|].
  apply List.filter_In in Hy. tauto.
Qed.



Lemma db_connect (verify : string -> option User) (id : string)
    (token : option string) (st : Server) :
  db (connect verify id token st) = db st.
Proof.
  unfold connect, on_connection.
  destruct token as [t|]; [|reflexivity].
  destruct (String.eqb t ""); [reflexivity|].
  destruct (verify t); reflexivity.
Qed.




End CommentIds.

(** ** Outcomes of the endpoints *)
Section Outcomes.
Import Backend Api.

(** *** The endpoints as decision trees *)

Lemma run_post_task_status (chk : TaskRow -> bool) (env : Env) (user : User)
    (task_id : string) (status : option string) (st : Server) :
  run (post_task_status chk env user task_id status) st
  = match status with
    | None => (Some {| code := 400; body := message "Invalid status" |}, st)
    | Some s =>
        if negb (includes validStatuses s)
        then (Some {| code := 400; body := message "Invalid status" |}, st)
        else
          match select_task task_id (db st) with
          | [] => (Some {| code := 404; body := message "Task not found" |},
                   st)
          | task :: _ =>
              if negb (is_admin user)
                 && (isnil (select_workspace_user (t_workspace_id task)
                              (user_id user) (db st))
                     || no_owner_or_other
                          (select_owner (t_workspace_id task) (db st)) user)
              then (Some {| code := 403; body := message "Forbidden" |}, st)
              else
                match update_task chk (only_status s)
                        (current_timestamp env) task_id (db st) with
                | inl (_, d) =>
                    (Some {| code := 200;
                             body := JObj [ ("task_id", JStr task_id);
                                            ("status", JStr s);
                                            ("updated_at",
                                             JStr (js_now env)) ] |},
                     with_db st
                       (db_with_task_activity d
                          (task_activity d ++
                           [ {| a_task_id := task_id;
                                a_user_id := user_id user;
                                a_action := "status_changed";
                                a_description :=
                                  String.append "Status changed to " s;
                                a_timestamp := current_timestamp env |} ])))
                | inr e =>
                    (Some {| code := 500;
                             body := message_error "Error changing status" e
                          |}, st)
                end
          end
    end.
Proof.
  unfold post_task_status. destruct status as [s|]; [|reflexivity].
  destruct (negb (includes validStatuses s)); [reflexivity|].
  unfold run, try_catch, bind, query.
  destruct (select_task task_id (db st)) as [|task rest]; [reflexivity|].
  destruct (negb (is_admin user) && _); [reflexivity|].
  unfold exec.
  destruct (update_task chk _ _ task_id (db st)) as [[[] d]|e];
    reflexivity.
Qed.

Lemma run_post_task_attachment (env : Env) (user : User) (task_id : string)
    (file : option File) (st : Server) :
  run (post_task_attachment env user task_id file) st
  = match file with
    | None => (Some {| code := 400; body := message "No file uploaded" |},
               st)
    | Some f =>
        match select_task task_id (db st) with
        | [] => (Some {| code := 404; body := message "Task not found" |},
                 st)
        | task :: _ =>
            if negb (is_admin user)
               && (isnil (select_workspace_user (t_workspace_id task)
                            (user_id user) (db st))
                   || no_owner_or_other
                        (select_owner (t_workspace_id task) (db st)) user)
            then (Some {| code := 403; body := message "Access denied" |},
                  st)
            else
              (Some {| code := 200;
                       body :=
                         JObj [ ("attachment_id", JStr (uuid env));
                                ("task_id", JStr task_id);
                                ("file_url",
                                 JStr (String.append "/storage/"
                                         (f_filename f)));
                                ("filename", JStr (f_originalname f));
                                ("uploaded_at", JStr (js_now env)) ] |},
               with_db st
                 (db_with_task_attachments (db st)
                    (task_attachments (db st) ++
                     [ {| at_task_id := task_id;
                          at_file_url :=
                            String.append "/storage/" (f_filename f);
                          at_added_by := user_id user;
                          at_added_at := current_timestamp env |} ])))
        end
    end.
Proof.
  unfold post_task_attachment. destruct file as [f|]; [|reflexivity].
  unfold run, try_catch, bind, query.
  destruct (select_task task_id (db st)) as [|task rest]; [reflexivity|].
  destruct (negb (is_admin user) && _); reflexivity.
Qed.

Lemma run_post_task_comment (env : Env) (user : User)
    (task_id content : string) (mentions : option (list string))
    (st : Server) :
  run (post_task_comment env user task_id content mentions) st
  = match select_task task_id (db st) with
    | [] => (Some {| code := 404; body := message "Task not found" |}, st)
    | task :: _ =>
        let stored :=
          let row := {| c_id := S (comments_id_seq (db st));
                        c_task_id := task_id;
                        c_user_id := user_id user;
                        c_content := content;
                        c_mentions := default mentions [];
                        c_created_at := current_timestamp env;
                        c_updated_at := current_timestamp env |} in
          (Some {| code := 200;
                   body :=
                     JObj [ ("comment_id", JNum (c_id row));
                            ("task_id", JStr task_id);
                            ("author_id", JStr (user_id user));
                            ("content", JStr content);
                            ("mentions",
                             JArr (List.map JStr (default mentions [])));
                            ("created_at", JStr (js_now env));
                            ("updated_at", JStr (js_now env)) ] |},
           with_db st
             (db_with_comments (db st) (comments (db st) ++ [ row ])
                (S (comments_id_seq (db st))))) in
        if negb (is_admin user)
           && isnil (select_workspace_user (t_workspace_id task)
                       (user_id user) (db st))
        then
          match select_owner (t_workspace_id task) (db st) with
          | [] =>
              (Some {| code := 500;
                       body :=
                         message_error "Error adding comment"
                           "Cannot read properties of undefined (reading 'owner_id')"
                    |}, st)
          | w :: _ =>
              if negb (String.eqb (w_owner_id w) (user_id user))
              then (Some {| code := 403; body := message "Access denied" |},
                    st)
              else stored
          end
        else stored
    end.
Proof.
  unfold post_task_comment, run, try_catch, bind, query.
  destruct (select_task task_id (db st)) as [|task rest]; [reflexivity|].
  destruct (negb (is_admin user) && _).
  - destruct (select_owner _ _) as [|w ws]; [reflexivity|].
    simpl. destruct (String.eqb (w_owner_id w) (user_id user)); reflexivity.
  - reflexivity.
Qed.

Lemma run_delete_task (cascade : bool) (user : User) (task_id : string)
    (st : Server) :
  run (delete_task cascade user task_id) st
  = match select_task task_id (db st) with
    | [] => (Some {| code := 404; body := message "Task not found" |}, st)
    | task :: _ =>
        if negb (is_admin user)
           && (isnil (select_workspace_user (t_workspace_id task)
                        (user_id user) (db st))
               || no_owner_or_other
                    (select_owner (t_workspace_id task) (db st)) user)
        then (Some {| code := 403; body := message "Forbidden" |}, st)
        else
          match delete_task_row cascade task_id (db st) with
          | inl (_, d) =>
              (Some {| code := 200;
                       body :=
                         JObj [ ("message", JStr "Task deleted successfully");
                                ("task_id", JStr task_id) ] |},
               with_db st d)
          | inr e =>
              (Some {| code := 500;
                       body := message_error "Error deleting task" e |}, st)
          end
    end.
Proof.
  unfold delete_task, run, try_catch, bind, query.
  destruct (select_task task_id (db st)) as [|task rest]; [reflexivity|].
  destruct (negb (is_admin user) && _); [reflexivity|].
  unfold exec. destruct (delete_task_row cascade task_id (db st))
    as [[[] d]|e]; reflexivity.
Qed.

Lemma insert_tags_goes_on (task_id : string) (tags : list string)
    (st : Server) :
  exists d, insert_tags task_id tags st = (Next tt, with_db st d).
Proof.
  revert st. induction tags as [|tag rest IH]; intros st; simpl.
  - exists (db st). unfold ret. destruct st; reflexivity.
  - unfold bind, exec.
    destruct (insert_task_tag task_id tag (db st)) as [[[] d]|e] eqn:E.
    + destruct (IH (with_db st d)) as [d' Hd']. exists d'.
      rewrite Hd'. reflexivity.
    + unfold insert_task_tag in E. destruct (existsb _ _); discriminate.
Qed.

(** The database that the tag statements of [PUT] leave. *)
Lemma run_put_task (chk : TaskRow -> bool) (dp : string -> bool) (env : Env)
    (user : User) (task_id : string) (b : TaskBody) (st : Server) :
  run (put_task chk dp env user task_id b) st
  = match select_task task_id (db st) with
    | [] => (Some {| code := 404; body := message "Task not found" |}, st)
    | task :: _ =>
        if isnil (select_workspace_user (t_workspace_id task)
                    (user_id user) (db st))
           && no_owner_or_other
                (select_owner (t_workspace_id task) (db st)) user
        then (Some {| code := 403; body := message "Access denied" |}, st)
        else
          match update_task chk (update_of_body dp b)
                  (current_timestamp env) task_id (db st) with
          | inl (_, d) =>
              let st2 :=
                match b_tags b with
                | Some tags =>
                    snd (insert_tags task_id tags
                           (with_db st
                              (db_with_task_tags d
                                 (List.filter
                                    (fun r =>
                                       negb (String.eqb (fst r) task_id))
                                    (task_tags d)))))
                | None => with_db st d
                end in
              (Some {| code := 200;
                       body := match select_task task_id (db st2) with
                               | row :: _ => task_row_json row
                               | [] => JNull
                               end |}, st2)
          | inr e =>
              (Some {| code := 500;
                       body := message_error "Error updating task" e |}, st)
          end
    end.
Proof.
  unfold put_task, run, try_catch, bind, query.
  destruct (select_task task_id (db st)) as [|task rest]; [reflexivity|].
  destruct (isnil _ && _); [reflexivity|].
  unfold exec.
  destruct (update_task chk _ _ task_id (db st)) as [[[] d]|e];
    [|reflexivity].
  destruct (b_tags b) as [tags|]; [|reflexivity].
  unfold delete_task_tags.
  destruct (insert_tags_goes_on task_id tags
              (with_db (with_db st d)
                 (db_with_task_tags (db (with_db st d))
                    (List.filter (fun r => negb (String.eqb (fst r) task_id))
                       (task_tags (db (with_db st d)))))))
    as [d' Hd'].
  cbn [db with_db] in Hd'.
  change (with_db (with_db st d) ?x) with (with_db st x) in Hd'.
  cbn [db with_db]. 
  change (with_db (with_db st d) ?x) with (with_db st x).
  rewrite Hd'. reflexivity.
Qed.

(** *** Refusals *)





(** X15: the status, attachment and delete endpoints refuse the same
    callers: on an existing task, one of them answers 403 exactly when
    the other two do; the caller is then no Admin and is not both a
    member and the owner of the task's workspace. *)
Theorem status_attachment_delete_refuse_alike (chk : TaskRow -> bool)
    (cascade : bool) (env : Env) (user : User) (task_id s : string)
    (f : File) (st : Server) (task : TaskRow) (rest : list TaskRow) :
  includes validStatuses s = true ->
  select_task task_id (db st) = task :: rest ->
  let refused :=
    is_admin user = false
    /\ (select_workspace_user (t_workspace_id task) (user_id user) (db st)
        = []
        \/ no_owner_or_other (select_owner (t_workspace_id task) (db st))
             user = true) in
  (option_map code
     (fst (run (post_task_status chk env user task_id (Some s)) st))
   = Some 403 <-> refused)
  /\ (option_map code
        (fst (run (post_task_attachment env user task_id (Some f)) st))
      = Some 403 <-> refused)
  /\ (option_map code (fst (run (delete_task cascade user task_id) st))
      = Some 403 <-> refused).
Proof.
  intros Hs Ht refused. subst refused.
  rewrite run_post_task_status, run_post_task_attachment, run_delete_task.
  rewrite Hs, Ht. simpl negb. cbv iota.
  destruct (is_admin user);
    [|destruct (select_workspace_user _ _ _) as [|m ms];
      [|destruct (no_owner_or_other _ _)]];
    simpl; (split; [|split]);
    (split;
     [ try destruct (update_task _ _ _ _ _) as [[[] ?]|?];
       try destruct (delete_task_row _ _ _) as [[[] ?]|?];
       simpl; intros K; try discriminate K; auto
     | intros K; try reflexivity;
       try (destruct K as [K1 [K2 | K2]]; discriminate) ]).
Qed.

Lemma status_attachment_delete_refuse_alike_witness :
  option_map code
    (fst (run (post_task_attachment Seed.env1 Seed.bob "task1"
                 (Some Seed.mockup_file)) Seed.bob_online))
  = Some 403.
Proof.
  apply (status_attachment_delete_refuse_alike schema_tasks_check true
           Seed.env1 Seed.bob "task1" "Completed" Seed.mockup_file
           Seed.bob_online Seed.task1 []); try reflexivity.
  split; [reflexivity | right; reflexivity].
Defined.

(** X16: the update endpoint asks for membership or ownership and for
    nothing else: on an existing task it answers 403 exactly when the
    caller is no member of the task's workspace and not its owner.  The
    Admin role gives no right to update, although it is enough for a
    status change of the same task. *)
Theorem put_task_refuses_non_members (chk : TaskRow -> bool)
    (dp : string -> bool) (env : Env) (user : User) (task_id : string)
    (b : TaskBody) (st : Server) (task : TaskRow) (rest : list TaskRow) :
  select_task task_id (db st) = task :: rest ->
  (option_map code (fst (run (put_task chk dp env user task_id b) st))
   = Some 403
   <->
   select_workspace_user (t_workspace_id task) (user_id user) (db st) = []
   /\ no_owner_or_other (select_owner (t_workspace_id task) (db st)) user
      = true)
  /\ (is_admin user = true ->
      forall s, includes validStatuses s = true ->
      option_map code
        (fst (run (post_task_status chk env user task_id (Some s)) st))
      <> Some 403).
Proof.
  intros Ht. split.
  - rewrite run_put_task, Ht. cbv zeta.
    destruct (select_workspace_user _ _ _) as [|m ms]; simpl.
    + destruct (no_owner_or_other _ _); simpl.
      * split; auto.
      * split; [|intros [_ K]; discriminate K].
        destruct (update_task _ _ _ _ _) as [[[] d]|e]; intros K;
          discriminate K.
    + split; [|intros [K _]; discriminate K].
      destruct (update_task _ _ _ _ _) as [[[] d]|e]; intros K;
        discriminate K.
  - intros Ha s Hs. rewrite run_post_task_status, Hs, Ht, Ha. simpl.
    destruct (update_task _ _ _ _ _) as [[[] d]|e]; intros K;
      discriminate K.
Qed.

Lemma put_task_refuses_non_members_witness :
  option_map code
    (fst (run (put_task schema_tasks_check (fun _ => true) Seed.env1
                 Seed.dave "task1" (Seed.body_status "Completed"))
            Seed.bob_online))
  = Some 403.
Proof.
  apply (put_task_refuses_non_members schema_tasks_check (fun _ => true)
           Seed.env1 Seed.dave "task1" (Seed.body_status "Completed")
           Seed.bob_online Seed.task1 []); [reflexivity|].
  split; reflexivity.
Defined.

(** *** Effects of a successful request *)

Lemma update_task_ok (chk : TaskRow -> bool) (u : TaskUpdate) (ts id : string)
    (d : DB) (a : unit) (d' : DB) :
  update_task chk u ts id d = inl (a, d') ->
  d' = db_with_tasks d
         (List.map (fun t => if String.eqb (t_id t) id
                             then set_columns u ts t else t) (tasks d)).
Proof.
  unfold update_task. destruct (forallb _ _); [|discriminate].
  intros H. injection H as _ <-. reflexivity.
Qed.

Lemma select_updated (u : TaskUpdate) (ts id : string) (l : list TaskRow) :
  List.filter (fun t => String.eqb (t_id t) id)
    (List.map (fun t => if String.eqb (t_id t) id
                        then set_columns u ts t else t) l)
  = List.map (set_columns u ts)
      (List.filter (fun t => String.eqb (t_id t) id) l).
Proof.
  induction l as [|t l IH]; simpl; [reflexivity|].
  destruct (String.eqb (t_id t) id) eqn:E; simpl; rewrite E, IH; reflexivity.
Qed.

Lemma others_not_updated (u : TaskUpdate) (ts id : string)
    (l : list TaskRow) :
  List.filter (fun t => negb (String.eqb (t_id t) id))
    (List.map (fun t => if String.eqb (t_id t) id
                        then set_columns u ts t else t) l)
  = List.filter (fun t => negb (String.eqb (t_id t) id)) l.
Proof.
  induction l as [|t l IH]; simpl; [reflexivity|].
  destruct (String.eqb (t_id t) id) eqn:E; simpl; rewrite E, IH; reflexivity.
Qed.



(** X18: what a successful comment request does.  Exactly one comment
    row was appended; it carries the task, the caller, the content and
    the mentions of the request (none when the body has none); the
    [comment_id] of the response is the id of that row, and when the
    stored ids were in order (see X12) it differs from the id of every
    older comment. *)
Theorem comment_is_stored_under_a_new_id (env : Env) (user : User)
    (task_id content : string) (mentions : option (list string))
    (st : Server) (rp : Response) (st' : Server) :
  run (post_task_comment env user task_id content mentions) st
  = (Some rp, st') ->
  code rp = 200 ->
  exists row,
    comments (db st') = comments (db st) ++ [ row ]
    /\ c_task_id row = task_id
    /\ c_user_id row = user_id user
    /\ c_content row = content
    /\ c_mentions row = default mentions []
    /\ match body rp with
       | JObj fields => jfield fields "comment_id"
       | _ => None
       end = Some (JNum (c_id row))
    /\ (comment_ids_ok (db st) ->
        ~ In (c_id row) (List.map c_id (comments (db st))))
    /\ tasks (db st') = tasks (db st)
    /\ task_activity (db st') = task_activity (db st).
Proof.
  intros H Hc. rewrite run_post_task_comment in H. cbv zeta in H.
  assert (Hfresh : comment_ids_ok (db st) ->
                   ~ In (S (comments_id_seq (db st)))
                       (List.map c_id (comments (db st)))).
  { intros [_ Hb] K. apply List.in_map_iff in K as (c & Hc' & Hin).
    rewrite List.Forall_forall in Hb. specialize (Hb c Hin). lia. }
  destruct (select_task task_id (db st)) as [|task rest];
    [injection H as <- <-; discriminate Hc|].
  destruct (negb (is_admin user) && _).
  - destruct (select_owner _ _) as [|w ws];
      [injection H as <- <-; discriminate Hc|].
    destruct (negb (String.eqb (w_owner_id w) (user_id user)));
      [injection H as <- <-; discriminate Hc|].
    injection H as <- <-. eexists. repeat split; try reflexivity.
    exact Hfresh.
  - injection H as <- <-. eexists. repeat split; try reflexivity.
    exact Hfresh.
Qed.

Lemma comment_is_stored_under_a_new_id_witness :
  exists row,
    comments
      (db (snd (run (post_task_comment Seed.env1 Seed.bob "task1"
                       "Looks good" None) Seed.bob_online)))
    = [ row ]
    /\ c_content row = "Looks good"
    /\ c_mentions row = [].
Proof.
  destruct (comment_is_stored_under_a_new_id Seed.env1 Seed.bob "task1"
              "Looks good" None Seed.bob_online
              (match fst (run (post_task_comment Seed.env1 Seed.bob "task1"
                                 "Looks good" None) Seed.bob_online) with
               | Some r => r
               | None => {| code := 0; body := JNull |}
               end)
              (snd (run (post_task_comment Seed.env1 Seed.bob "task1"
                           "Looks good" None) Seed.bob_online))
              eq_refl eq_refl)
    as (row & Hrow & _ & _ & Hcontent & Hm & _).
  exists row. split; [exact Hrow|]. split; [exact Hcontent | exact Hm].
Defined.

(** X19: when the workspace row of a task is missing, the comment
    endpoint answers a caller who is neither Admin nor member with 500
    (reading [owner_id] of the missing row raises), not with 403, and
    stores nothing; an Admin or a member is served without the row. *)
Theorem comment_without_workspace_row (env : Env) (user : User)
    (task_id content : string) (mentions : option (list string))
    (st : Server) (task : TaskRow) (rest : list TaskRow) :
  select_task task_id (db st) = task :: rest ->
  select_owner (t_workspace_id task) (db st) = [] ->
  let outcome :=
    run (post_task_comment env user task_id content mentions) st in
  if negb (is_admin user)
     && isnil (select_workspace_user (t_workspace_id task) (user_id user)
                 (db st))
  then outcome
       = (Some {| code := 500;
                  body :=
                    message_error "Error adding comment"
                      "Cannot read properties of undefined (reading 'owner_id')"
               |}, st)
  else option_map code (fst outcome) = Some 200.
Proof.
  intros Ht Hw outcome. subst outcome.
  rewrite run_post_task_comment, Ht, Hw. cbv zeta.
  destruct (negb (is_admin user) && _); reflexivity.
Qed.

Lemma comment_without_workspace_row_witness :
  let d := db_with_tasks Seed.seed_db
             [ {| t_id := "task7"; t_workspace_id := "workspace9";
                  t_created_by := "user2"; t_assigned_to := None;
                  t_title := "Orphan"; t_description := None;
                  t_due_date := None; t_priority := "Low";
                  t_status := "Pending"; t_created_at := Seed.ts0;
                  t_updated_at := Seed.ts0 |} ] in
  option_map code
    (fst (run (post_task_comment Seed.env1 Seed.bob "task7" "hello" None)
            (initial_server d)))
  = Some 500.
Proof.
  intros d.
  pose proof (comment_without_workspace_row Seed.env1 Seed.bob "task7"
                "hello" None (initial_server d)
                {| t_id := "task7"; t_workspace_id := "workspace9";
                   t_created_by := "user2"; t_assigned_to := None;
                   t_title := "Orphan"; t_description := None;
                   t_due_date := None; t_priority := "Low";
                   t_status := "Pending"; t_created_at := Seed.ts0;
                   t_updated_at := Seed.ts0 |} [] eq_refl eq_refl) as H.
  simpl in H. rewrite H. reflexivity.
Defined.

(** *** The update endpoint *)

Lemma existsb_tag (task tag : string) (l : list (string * string)) :
  existsb (fun r => String.eqb (fst r) task && String.eqb (snd r) tag) l
  = true <-> In (task, tag) l.
Proof.
  rewrite List.existsb_exists. split.
  - intros ([x g] & Hin & H). simpl in H.
    apply andb_true_iff in H as [H1 H2].
    apply String.eqb_eq in H1, H2. subst. exact Hin.
  - intros H. exists (task, tag). split; [exact H|]. simpl.
    now rewrite !String.eqb_refl.
Qed.

Lemma with_db_tags_same (st : Server) :
  with_db st (db_with_task_tags (db st) (task_tags (db st))) = st.
Proof. destruct st as [d ? ? ?]. destruct d. reflexivity. Qed.

(** What the loop over the tags of a request leaves in [task_tags]. *)
Lemma insert_tags_spec (id : string) (tags : list string) (st : Server) :
  exists T,
    snd (insert_tags id tags st) = with_db st (db_with_task_tags (db st) T)
    /\ (forall x g, In (x, g) T <->
                    In (x, g) (task_tags (db st)) \/ (x = id /\ In g tags))
    /\ List.filter (fun r => negb (String.eqb (fst r) id)) T
       = List.filter (fun r => negb (String.eqb (fst r) id))
           (task_tags (db st))
    /\ (List.NoDup (List.filter (fun r => String.eqb (fst r) id)
                      (task_tags (db st))) ->
        List.NoDup (List.filter (fun r => String.eqb (fst r) id) T)).
Proof.
  revert st. induction tags as [|tag rest IH]; intros st.
  - exists (task_tags (db st)). simpl. rewrite with_db_tags_same.
    repeat split; auto. intros [H | [_ []]]. exact H.
  - simpl. unfold bind, exec, insert_task_tag.
    destruct (existsb _ (task_tags (db st))) eqn:E.
    + apply existsb_tag in E.
      replace (with_db st (db st)) with st by (destruct st; reflexivity).
      destruct (IH st) as (T & H1 & H2 & H3 & H4).
      exists T. rewrite H1. repeat split; auto.
      * intros H. apply H2 in H as [H | [-> H]]; auto.
      * intros [H | [-> [<- | H]]]; apply H2; auto.
    + destruct (IH (with_db st
                      (db_with_task_tags (db st)
                         (task_tags (db st) ++ [ (id, tag) ]))))
        as (T & H1 & H2 & H3 & H4).
      exists T. rewrite H1. cbn [db with_db task_tags db_with_task_tags] in *.
      split; [reflexivity|]. split; [|split].
      * intros x g. rewrite H2, List.in_app_iff. simpl. split.
        -- intros [[H | [H | []]] | [-> H]]; auto.
           injection H as <- <-. auto.
        -- intros [H | [-> [<- | H]]]; auto.
      * rewrite H3, List.filter_app. simpl. rewrite String.eqb_refl. simpl.
        apply app_nil_r.
      * intros Hn. apply H4. rewrite List.filter_app. simpl.
        rewrite String.eqb_refl.
        apply List.NoDup_app; [exact Hn| |].
        -- constructor; [intros []|constructor].
        -- intros a Ha [<- | []].
           apply List.filter_In in Ha as [Ha _].
           apply existsb_tag in Ha. congruence.
Qed.

Lemma filter_own_of_others (id : string) (l : list (string * string)) :
  List.filter (fun r => String.eqb (fst r) id)
    (List.filter (fun r => negb (String.eqb (fst r) id)) l) = [].
Proof.
  induction l as [|[x g] l IH]; [reflexivity|].
  simpl. destruct (String.eqb x id) eqn:E; simpl; rewrite ?E; exact IH.
Qed.

Lemma filter_others_twice (id : string) (l : list (string * string)) :
  List.filter (fun r => negb (String.eqb (fst r) id))
    (List.filter (fun r => negb (String.eqb (fst r) id)) l)
  = List.filter (fun r => negb (String.eqb (fst r) id)) l.
Proof.
  induction l as [|[x g] l IH]; [reflexivity|].
  simpl. destruct (String.eqb x id) eqn:E; simpl; rewrite ?E; simpl;
    [exact IH | now rewrite IH].
Qed.

(** The state a successful update leaves. *)
Lemma put_task_ok (chk : TaskRow -> bool) (dp : string -> bool) (env : Env)
    (user : User) (task_id : string) (b : TaskBody) (st : Server)
    (rp : Response) (st' : Server) :
  run (put_task chk dp env user task_id b) st = (Some rp, st') ->
  code rp = 200 ->
  exists task rest T,
    select_task task_id (db st) = task :: rest
    /\ db st'
       = db_with_task_tags
           (db_with_tasks (db st)
              (List.map
                 (fun t => if String.eqb (t_id t) task_id
                           then set_columns (update_of_body dp b)
                                  (current_timestamp env) t
                           else t) (tasks (db st)))) T
    /\ body rp
       = task_row_json
           (set_columns (update_of_body dp b) (current_timestamp env) task)
    /\ match b_tags b with
       | None => T = task_tags (db st)
       | Some tags =>
           (forall g, In (task_id, g) T <-> In g tags)
           /\ List.NoDup (List.filter (fun r => String.eqb (fst r) task_id) T)
           /\ List.filter (fun r => negb (String.eqb (fst r) task_id)) T
              = List.filter (fun r => negb (String.eqb (fst r) task_id))
                  (task_tags (db st))
       end.
Proof.
  intros H Hc. rewrite run_put_task in H. cbv zeta in H.
  destruct (select_task task_id (db st)) as [|task rest] eqn:Ht;
    [injection H as <- <-; discriminate Hc|].
  destruct (isnil _ && _); [injection H as <- <-; discriminate Hc|].
  destruct (update_task _ _ _ _ _) as [[[] d]|e] eqn:Hu;
    [|injection H as <- <-; discriminate Hc].
  apply update_task_ok in Hu.
  assert (Hsel : forall T,
            select_task task_id (db_with_task_tags d T)
            = List.map (set_columns (update_of_body dp b)
                          (current_timestamp env)) (task :: rest)).
  { intros T. rewrite <- Ht, Hu. unfold select_task.
    cbn [tasks db_with_task_tags db_with_tasks]. apply select_updated. }
  exists task, rest.
  destruct (b_tags b) as [tags|].
  - destruct (insert_tags_spec task_id tags
                (with_db st
                   (db_with_task_tags d
                      (List.filter
                         (fun r => negb (String.eqb (fst r) task_id))
                         (task_tags d)))))
      as (T & H1 & H2 & H3 & H4).
    cbn [db with_db task_tags db_with_task_tags] in *.
    rewrite H1 in H. injection H as <- <-.
    exists T. cbn [db with_db body].
    split; [reflexivity|]. split; [now rewrite Hu|]. split.
    { change (db_with_task_tags
                (db_with_task_tags d
                   (List.filter (fun r => negb (String.eqb (fst r) task_id))
                      (task_tags d))) T)
        with (db_with_task_tags d T).
      rewrite Hsel. reflexivity. }
    assert (Htags : task_tags d = task_tags (db st)) by now rewrite Hu.
    rewrite Htags in *. split; [|split].
    + intros g. rewrite H2. split.
      * intros [K | [_ K]]; [|exact K].
        apply List.filter_In in K as [_ K]. simpl in K.
        rewrite String.eqb_refl in K. discriminate K.
      * intros K. right. split; [reflexivity | exact K].
    + apply H4.
      replace (List.filter (fun r => String.eqb (fst r) task_id)
                 (List.filter (fun r => negb (String.eqb (fst r) task_id))
                    (task_tags (db st))))
        with (@nil (string * string)); [constructor|].
      symmetry. apply filter_own_of_others.
    + rewrite H3. apply filter_others_twice.
  - injection H as <- <-. exists (task_tags (db st)).
    cbn [db with_db body]. split; [reflexivity|]. split.
    { rewrite Hu. reflexivity. }
    split; [|reflexivity].
    replace d with (db_with_task_tags d (task_tags d))
      by (destruct d; reflexivity).
    rewrite Hsel. reflexivity.
Qed.

(** X20: a successful update that names tags replaces the tags of the
    task: afterwards the task has exactly the tags of the request, each
    stored once however often the request repeats it, and the tags of
    every other task are as before. *)
Theorem put_task_replaces_tags (chk : TaskRow -> bool) (dp : string -> bool)
    (env : Env) (user : User) (task_id : string) (b : TaskBody)
    (tags : list string) (st : Server) (rp : Response) (st' : Server) :
  run (put_task chk dp env user task_id b) st = (Some rp, st') ->
  code rp = 200 ->
  b_tags b = Some tags ->
  (forall g, In (task_id, g) (task_tags (db st')) <-> In g tags)
  /\ List.NoDup
       (List.filter (fun r => String.eqb (fst r) task_id)
          (task_tags (db st')))
  /\ List.filter (fun r => negb (String.eqb (fst r) task_id))
       (task_tags (db st'))
     = List.filter (fun r => negb (String.eqb (fst r) task_id))
         (task_tags (db st)).
Proof.
  intros H Hc Hb.
  destruct (put_task_ok _ _ _ _ _ _ _ _ _ H Hc)
    as (task & rest & T & _ & Hdb & _ & Ht).
  rewrite Hb in Ht. rewrite Hdb. exact Ht.
Qed.

Lemma put_task_replaces_tags_witness :
  let b := {| b_title := None; b_description := None; b_due_date := None;
              b_priority := None; b_status := None; b_assigned_to := None;
              b_tags := Some [ "UX"; "Review"; "UX" ] |} in
  let st' := snd (run (put_task schema_tasks_check (fun _ => true) Seed.env1
                         Seed.bob "task1" b) Seed.bob_online) in
  In ("task1", "Review") (task_tags (db st'))
  /\ ~ In ("task1", "Design") (task_tags (db st'))
  /\ List.NoDup
       (List.filter (fun r => String.eqb (fst r) "task1")
          (task_tags (db st'))).
Proof.
  intros b st'.
  destruct (put_task_replaces_tags schema_tasks_check (fun _ => true)
              Seed.env1 Seed.bob "task1" b [ "UX"; "Review"; "UX" ]
              Seed.bob_online
              (match fst (run (put_task schema_tasks_check (fun _ => true)
                                 Seed.env1 Seed.bob "task1" b)
                            Seed.bob_online) with
               | Some r => r
               | None => {| code := 0; body := JNull |}
               end) st' eq_refl eq_refl eq_refl) as (Hin & Hnd & _).
  split; [|split; [|exact Hnd]].
  - apply Hin. simpl. auto.
  - intros K. apply Hin in K. simpl in K.
    destruct K as [K | [K | [K | []]]]; discriminate K.
Defined.

(** X21: a successful update answers with the row it stored.  The body
    of the response is the first row a following
    [SELECT * FROM tasks WHERE id] returns; that row is the old one with
    the columns named in the request replaced and [updated_at] set to
    the database's current time, also when the request names no column
    at all; the rows of other tasks are untouched. *)
Theorem put_task_answers_with_stored_row (chk : TaskRow -> bool)
    (dp : string -> bool) (env : Env) (user : User) (task_id : string)
    (b : TaskBody) (st : Server) (rp : Response) (st' : Server) :
  run (put_task chk dp env user task_id b) st = (Some rp, st') ->
  code rp = 200 ->
  exists old olds row rows,
    select_task task_id (db st) = old :: olds
    /\ select_task task_id (db st') = row :: rows
    /\ body rp = task_row_json row
    /\ row = set_columns (update_of_body dp b) (current_timestamp env) old
    /\ t_updated_at row = current_timestamp env
    /\ t_title row = default (b_title b) (t_title old)
    /\ t_status row = default (b_status b) (t_status old)
    /\ t_priority row = default (b_priority b) (t_priority old)
    /\ List.filter (fun t => negb (String.eqb (t_id t) task_id))
         (tasks (db st'))
       = List.filter (fun t => negb (String.eqb (t_id t) task_id))
           (tasks (db st)).
Proof.
  intros H Hc.
  destruct (put_task_ok _ _ _ _ _ _ _ _ _ H Hc)
    as (task & rest & T & Ht & Hdb & Hbody & _).
  exists task, rest,
    (set_columns (update_of_body dp b) (current_timestamp env) task),
    (List.map (set_columns (update_of_body dp b) (current_timestamp env))
       rest).
  split; [exact Ht|]. rewrite Hdb. unfold select_task in *.
  cbn [tasks db_with_task_tags db_with_tasks].
  rewrite select_updated, Ht, others_not_updated.
  repeat split; try reflexivity. exact Hbody.
Qed.

Lemma put_task_answers_with_stored_row_witness :
  let b := {| b_title := None; b_description := None; b_due_date := None;
              b_priority := None; b_status := None; b_assigned_to := None;
              b_tags := None |} in
  let st' := snd (run (put_task schema_tasks_check (fun _ => true) Seed.env1
                         Seed.bob "task1" b) Seed.bob_online) in
  exists row rows,
    select_task "task1" (db st') = row :: rows
    /\ t_updated_at row = current_timestamp Seed.env1
    /\ t_status row = "In Progress".
Proof.
  intros b st'.
  destruct (put_task_answers_with_stored_row schema_tasks_check
              (fun _ => true) Seed.env1 Seed.bob "task1" b Seed.bob_online
              (match fst (run (put_task schema_tasks_check (fun _ => true)
                                 Seed.env1 Seed.bob "task1" b)
                            Seed.bob_online) with
               | Some r => r
               | None => {| code := 0; body := JNull |}
               end) st' eq_refl eq_refl)
    as (old & olds & row & rows & Hold & Hnew & _ & _ & Hup & _ & Hst & _).
  exists row, rows. split; [exact Hnew|]. split; [exact Hup|].
  rewrite Hst. vm_compute in Hold. injection Hold as <- _. reflexivity.
Defined.



(** *** Creating and deleting tasks *)

(** The row [POST /tasks] builds from the request. *)
Lemma run_post_task (chk : TaskRow -> bool) (dp : string -> bool) (env : Env)
    (user : User) (b : NewTask) (st : Server) :
  run (post_task chk dp env user b) st
  = if isnil (select_workspace_user (n_workspace_id b) (user_id user)
                (db st))
       && no_owner_or_other (select_owner (n_workspace_id b) (db st)) user
    then (Some {| code := 403;
                  body := message "Access denied to workspace" |}, st)
    else
      match insert_task chk
              {| t_id := uuid env;
                 t_workspace_id := n_workspace_id b;
                 t_created_by := user_id user;
                 t_assigned_to := or_null (n_assigned_to b);
                 t_title := n_title b;
                 t_description := or_null (n_description b);
                 t_due_date := match n_due_date b with
                               | Some d => validDueDate dp d
                               | None => None
                               end;
                 t_priority := or_default (n_priority b) "Medium";
                 t_status := or_default (n_status b) "Pending";
                 t_created_at := current_timestamp env;
                 t_updated_at := current_timestamp env |} (db st) with
      | inl (row, d) =>
          (Some {| code := 200; body := task_row_json row |},
           match n_tags b with
           | Some tags => snd (insert_tags (uuid env) tags (with_db st d))
           | None => with_db st d
           end)
      | inr e =>
          (Some {| code := 500;
                   body := message_error "Error creating task" e |}, st)
      end.
Proof.
  unfold post_task, run, try_catch, bind, query, begin_, commit, rollback,
    ret, reply. cbv zeta.
  destruct (select_workspace_user _ _ _) as [|m ms]; simpl.
  - destruct (select_owner _ _) as [|w ws]; simpl; [reflexivity|].
    destruct (String.eqb (w_owner_id w) (user_id user)); simpl;
      [|reflexivity].
    unfold exec. destruct (insert_task _ _ _) as [[row d]|e]; [|reflexivity].
    destruct (n_tags b) as [tags|]; [|reflexivity].
    destruct (insert_tags_goes_on (uuid env) tags (with_db st d))
      as [d' Hd'].
    rewrite Hd'. reflexivity.
  - unfold exec. destruct (insert_task _ _ _) as [[row d]|e]; [|reflexivity].
    destruct (n_tags b) as [tags|]; [|reflexivity].
    destruct (insert_tags_goes_on (uuid env) tags (with_db st d))
      as [d' Hd'].
    rewrite Hd'. reflexivity.
Qed.

Lemma select_fresh (id : string) (l : list TaskRow) (row : TaskRow) :
  existsb (fun t => String.eqb (t_id t) (t_id row)) l = false ->
  t_id row = id ->
  List.filter (fun t => String.eqb (t_id t) id) (l ++ [ row ]) = [ row ].
Proof.
  intros H <-. rewrite List.filter_app. simpl. rewrite String.eqb_refl.
  replace (List.filter _ l) with (@nil TaskRow); [reflexivity|].
  symmetry. induction l as [|t l IH]; [reflexivity|].
  simpl in *. apply orb_false_iff in H as [H1 H2]. rewrite H1. now apply IH.
Qed.

(** The state a successful creation leaves. *)
Lemma post_task_ok (chk : TaskRow -> bool) (dp : string -> bool) (env : Env)
    (user : User) (b : NewTask) (st : Server) (rp : Response)
    (st' : Server) :
  run (post_task chk dp env user b) st = (Some rp, st') ->
  code rp = 200 ->
  exists row T,
    db st' = db_with_task_tags
               (db_with_tasks (db st) (tasks (db st) ++ [ row ])) T
    /\ body rp = task_row_json row
    /\ select_task (uuid env) (db st') = [ row ]
    /\ t_id row = uuid env
    /\ t_workspace_id row = n_workspace_id b
    /\ t_created_by row = user_id user
    /\ t_status row = or_default (n_status b) "Pending"
    /\ t_priority row = or_default (n_priority b) "Medium"
    /\ chk row = true
    /\ (isnil (select_workspace_user (n_workspace_id b) (user_id user)
                 (db st))
        && no_owner_or_other (select_owner (n_workspace_id b) (db st)) user
        = false).
Proof.
  intros H Hc. rewrite run_post_task in H.
  destruct (isnil _ && _) eqn:Hacc; [injection H as <- <-; discriminate Hc|].
  unfold insert_task in H.
  destruct (chk _) eqn:Hchk; simpl in H;
    [|injection H as <- <-; discriminate Hc].
  destruct (existsb _ (tasks (db st))) eqn:Hex;
    [injection H as <- <-; discriminate Hc|].
  match type of H with
  | (Some {| code := 200; body := task_row_json ?r |}, _) = _ =>
      set (row := r) in *
  end.
  assert (Hsel : forall T,
            select_task (uuid env)
              (db_with_task_tags
                 (db_with_tasks (db st) (tasks (db st) ++ [ row ])) T)
            = [ row ]).
  { intros T. unfold select_task.
    cbn [tasks db_with_task_tags db_with_tasks].
    apply select_fresh; [exact Hex | reflexivity]. }
  destruct (n_tags b) as [tags|].
  - destruct (insert_tags_spec (uuid env) tags
                (with_db st
                   (db_with_tasks (db st) (tasks (db st) ++ [ row ]))))
      as (T & H1 & _).
    rewrite H1 in H. injection H as <- <-. exists row, T.
    cbn [db with_db body].
    repeat split; try reflexivity; try exact Hchk. apply Hsel.
  - injection H as <- <-. exists row, (task_tags (db st)).
    cbn [db with_db body].
    assert (E : db_with_tasks (db st) (tasks (db st) ++ [ row ])
                = db_with_task_tags
                    (db_with_tasks (db st) (tasks (db st) ++ [ row ]))
                    (task_tags (db st)))
      by (destruct (db st); reflexivity).
    rewrite E. repeat split; try reflexivity; try exact Hchk. apply Hsel.
Qed.

(** X23: what a successful creation does.  Exactly one task row was
    appended; it carries the id drawn for the request, the workspace of
    the request and the caller as creator; an absent or empty status
    became "Pending" and an absent or empty priority "Medium"; the body
    of the response is that row, and a following lookup by the id
    returns it and nothing else. *)
Theorem post_task_stores_one_row (chk : TaskRow -> bool)
    (dp : string -> bool) (env : Env) (user : User) (b : NewTask)
    (st : Server) (rp : Response) (st' : Server) :
  run (post_task chk dp env user b) st = (Some rp, st') ->
  code rp = 200 ->
  exists row,
    tasks (db st') = tasks (db st) ++ [ row ]
    /\ select_task (uuid env) (db st') = [ row ]
    /\ body rp = task_row_json row
    /\ t_id row = uuid env
    /\ t_workspace_id row = n_workspace_id b
    /\ t_created_by row = user_id user
    /\ t_status row = or_default (n_status b) "Pending"
    /\ t_priority row = or_default (n_priority b) "Medium".
Proof.
  intros H Hc.
  destruct (post_task_ok _ _ _ _ _ _ _ _ H Hc)
    as (row & T & Hdb & Hb & Hsel & H1 & H2 & H3 & H4 & H5 & _).
  exists row. rewrite Hdb at 1. cbn [tasks db_with_task_tags db_with_tasks].
  repeat split; assumption.
Qed.

Lemma post_task_stores_one_row_witness :
  let b := {| n_workspace_id := "workspace1"; n_title := "Plan the demo";
              n_description := None; n_due_date := None;
              n_priority := None; n_status := Some "";
              n_assigned_to := None; n_tags := Some [ "demo" ] |} in
  let st' := snd (run (post_task schema_tasks_check (fun _ => true)
                         Seed.env1 Seed.bob b) Seed.bob_online) in
  exists row,
    select_task (uuid Seed.env1) (db st') = [ row ]
    /\ t_status row = "Pending"
    /\ t_priority row = "Medium".
Proof.
  intros b st'.
  destruct (post_task_stores_one_row schema_tasks_check (fun _ => true)
              Seed.env1 Seed.bob b Seed.bob_online
              (match fst (run (post_task schema_tasks_check (fun _ => true)
                                 Seed.env1 Seed.bob b) Seed.bob_online) with
               | Some r => r
               | None => {| code := 0; body := JNull |}
               end) st' eq_refl eq_refl)
    as (row & _ & Hsel & _ & _ & _ & _ & Hst & Hpr).
  exists row. split; [exact Hsel|]. split; [exact Hst | exact Hpr].
Defined.

(** X24: creating a task takes membership or ownership of the workspace
    (the Admin role is not asked); changing the status takes the Admin
    role or membership together with ownership.  So a member who is
    neither Admin nor owner can create a task and is then refused when
    changing the status of that very task. *)
Theorem creator_may_not_change_status (chk : TaskRow -> bool)
    (dp : string -> bool) (env env2 : Env) (user : User) (b : NewTask)
    (s : string) (st : Server) (rp : Response) (st' : Server) :
  run (post_task chk dp env user b) st = (Some rp, st') ->
  code rp = 200 ->
  is_admin user = false ->
  no_owner_or_other (select_owner (n_workspace_id b) (db st)) user = true ->
  includes validStatuses s = true ->
  run (post_task_status chk env2 user (uuid env) (Some s)) st'
  = (Some {| code := 403; body := message "Forbidden" |}, st').
Proof.
  intros H Hc Ha Ho Hs.
  destruct (post_task_ok _ _ _ _ _ _ _ _ H Hc)
    as (row & T & Hdb & _ & Hsel & _ & Hws & _).
  rewrite run_post_task_status, Hs, Hsel, Ha, Hws. simpl negb. cbv iota.
  replace (select_owner (n_workspace_id b) (db st'))
    with (select_owner (n_workspace_id b) (db st))
    by (rewrite Hdb; reflexivity).
  rewrite Ho, orb_true_r. reflexivity.
Qed.

Lemma creator_may_not_change_status_witness :
  let b := {| n_workspace_id := "workspace1"; n_title := "Plan the demo";
              n_description := None; n_due_date := None;
              n_priority := None; n_status := None;
              n_assigned_to := None; n_tags := None |} in
  let st' := snd (run (post_task schema_tasks_check (fun _ => true)
                         Seed.env1 Seed.bob b) Seed.bob_online) in
  run (post_task_status schema_tasks_check Seed.env1 Seed.bob
         (uuid Seed.env1) (Some "In Progress")) st'
  = (Some {| code := 403; body := message "Forbidden" |}, st').
Proof.
  intros b st'.
  apply (creator_may_not_change_status schema_tasks_check (fun _ => true)
           Seed.env1 Seed.env1 Seed.bob b "In Progress" Seed.bob_online
           (match fst (run (post_task schema_tasks_check (fun _ => true)
                              Seed.env1 Seed.bob b) Seed.bob_online) with
            | Some r => r
            | None => {| code := 0; body := JNull |}
            end) st'); reflexivity.
Defined.

(** X25: after a successful deletion the task is gone: a lookup by its
    id returns no row, so a following status change of it is answered
    404; the rows of every other task are untouched; and with the
    schema's [ON DELETE CASCADE] no tag, activity row, comment or
    attachment of the task is left. *)
Theorem delete_task_removes_the_task (chk : TaskRow -> bool)
    (cascade : bool) (env : Env) (user : User) (task_id : string)
    (st : Server) (rp : Response) (st' : Server) :
  run (delete_task cascade user task_id) st = (Some rp, st') ->
  code rp = 200 ->
  select_task task_id (db st') = []
  /\ List.filter (fun t => negb (String.eqb (t_id t) task_id))
       (tasks (db st'))
     = List.filter (fun t => negb (String.eqb (t_id t) task_id))
         (tasks (db st))
  /\ (forall s, includes validStatuses s = true ->
                run (post_task_status chk env user task_id (Some s)) st'
                = (Some {| code := 404; body := message "Task not found" |},
                   st'))
  /\ (cascade = true ->
      (forall g, ~ In (task_id, g) (task_tags (db st')))
      /\ Forall (fun c => c_task_id c <> task_id) (comments (db st'))
      /\ Forall (fun a => a_task_id a <> task_id) (task_activity (db st'))
      /\ Forall (fun a => at_task_id a <> task_id)
           (task_attachments (db st'))).
Proof.
  assert (Hgone : forall l : list TaskRow,
            List.filter (fun t => String.eqb (t_id t) task_id)
              (List.filter (fun t => negb (String.eqb (t_id t) task_id)) l)
            = []).
  { induction l as [|t l IH]; [reflexivity|]. simpl.
    destruct (String.eqb (t_id t) task_id) eqn:E; simpl; rewrite ?E;
      exact IH. }
  assert (Hidem : forall l : list TaskRow,
            List.filter (fun t => negb (String.eqb (t_id t) task_id))
              (List.filter (fun t => negb (String.eqb (t_id t) task_id)) l)
            = List.filter (fun t => negb (String.eqb (t_id t) task_id)) l).
  { induction l as [|t l IH]; [reflexivity|]. simpl.
    destruct (String.eqb (t_id t) task_id) eqn:E; simpl; rewrite ?E; simpl;
      [exact IH | now rewrite IH]. }
  assert (Hrows : forall {A} (f : A -> string) (l : list A),
            Forall (fun a => f a <> task_id)
              (List.filter (fun a => negb (String.eqb (f a) task_id)) l)).
  { intros A f l. apply List.Forall_forall. intros a Ha.
    apply List.filter_In in Ha as [_ Ha].
    apply negb_true_iff, String.eqb_neq in Ha. exact Ha. }
  intros H Hc. rewrite run_delete_task in H.
  destruct (select_task task_id (db st)) as [|task rest];
    [injection H as <- <-; discriminate Hc|].
  destruct (negb (is_admin user) && _);
    [injection H as <- <-; discriminate Hc|].
  unfold delete_task_row in H.
  assert (Hsel : select_task task_id (db st') = []).
  { destruct cascade; injection H as <- <-; unfold select_task;
      cbn [db with_db tasks db_with_tasks]; apply Hgone. }
  split; [exact Hsel|]. split; [|split].
  - destruct cascade; injection H as <- <-;
      cbn [db with_db tasks db_with_tasks]; apply Hidem.
  - intros s Hs. rewrite run_post_task_status, Hs, Hsel. reflexivity.
  - intros ->. injection H as <- <-.
    cbn [db with_db task_tags comments task_activity task_attachments].
    split; [|split; [|split]].
    + intros g K. apply List.filter_In in K as [_ K]. simpl in K.
      rewrite String.eqb_refl in K. discriminate K.
    + apply (Hrows _ c_task_id).
    + apply (Hrows _ a_task_id).
    + apply (Hrows _ at_task_id).
Qed.

Lemma delete_task_removes_the_task_witness :
  let st' := snd (run (delete_task true Seed.alice "task1")
                    Seed.bob_online) in
  select_task "task1" (db st') = []
  /\ List.map t_id (tasks (db st')) = [ "task2"; "task3" ].
Proof.
  intros st'.
  destruct (delete_task_removes_the_task schema_tasks_check true Seed.env1
              Seed.alice "task1" Seed.bob_online
              {| code := 200;
                 body := JObj [ ("message", JStr "Task deleted successfully");
                                ("task_id", JStr "task1") ] |}
              st' eq_refl eq_refl) as (Hsel & _).
  split; [exact Hsel | reflexivity].
Defined.

End Outcomes.

(** ** Sessions *)
Section Sessions.
Import Backend Api.

Lemma includes_In (l : list string) (x : string) :
  includes l x = true <-> In x l.
Proof.
  induction l as [|y l IH]; simpl; [split; [discriminate | intros []]|].
  rewrite orb_true_iff, IH, String.eqb_eq. tauto.
Qed.

Lemma length_append (a b : string) :
  String.length (String.append a b) = String.length a + String.length b.
Proof. induction a as [|c a IH]; simpl; [reflexivity | now rewrite IH]. Qed.

Lemma emitted_connect (verify : string -> option User) (id : string)
    (token : option string) (st : Server) :
  emitted (connect verify id token st) = emitted st
  /\ delivered (connect verify id token st) = delivered st.
Proof.
  unfold connect, on_connection.
  destruct token as [t|]; [|split; reflexivity].
  destruct (String.eqb t ""); [split; reflexivity|].
  destruct (verify t); split; reflexivity.
Qed.

Lemma Server_ext (a b : Server) :
  db a = db b -> sockets a = sockets b -> emitted a = emitted b ->
  delivered a = delivered b -> a = b.
Proof. destruct a, b; simpl; intros; subst; reflexivity. Qed.

(** The socket a verified handshake adds. *)
Lemma connect_verified_socket (verify : string -> option User)
    (id t : string) (u : User) (st : Server) :
  ~ In id (List.map sid (sockets st)) ->
  String.eqb t "" = false ->
  verify t = Some u ->
  sockets (connect verify id (Some t) st)
  = sockets st ++
    [ {| sid := id; data_user := Some u;
         rooms := if includes [ id ] (String.append "user_" (user_id u))
                  then [ id ]
                  else [ id ] ++ [ String.append "user_" (user_id u) ] |} ].
Proof.
  intros H Ht Hv. unfold connect, on_connection. rewrite Ht, Hv.
  unfold socket_join, set_data_user, update_socket, accept.
  cbn [sockets with_sockets].
  rewrite !List.map_app, !(update_other_ids id _ _ H).
  cbn [List.map sid]. rewrite String.eqb_refl. cbn [sid].
  rewrite String.eqb_refl. reflexivity.
Qed.

Lemma connect_outcome (verify : string -> option User) (id : string)
    (token : option string) (st : Server) :
  ~ In id (List.map sid (sockets st)) ->
  connect verify id token st = st
  \/ exists t u,
       token = Some t /\ verify t = Some u
       /\ sockets (connect verify id token st)
          = sockets st ++
            [ {| sid := id; data_user := Some u;
                 rooms :=
                   if includes [ id ] (String.append "user_" (user_id u))
                   then [ id ]
                   else [ id ] ++ [ String.append "user_" (user_id u) ] |} ].
Proof.
  intros H.
  destruct token as [t|];
    [|left; unfold connect, on_connection; now apply disconnect_accepted].
  destruct (String.eqb t "") eqn:Ht.
  - left. unfold connect, on_connection. rewrite Ht.
    now apply disconnect_accepted.
  - destruct (verify t) as [u|] eqn:Hv.
    + right. exists t, u. split; [reflexivity|]. split; [exact Hv|].
      now apply connect_verified_socket.
    + left. unfold connect, on_connection. rewrite Ht, Hv.
      now apply disconnect_accepted.
Qed.

(** X26: a session leaves no trace: for a new socket id and whatever
    token, a handshake followed by the disconnection of that socket
    gives back the server as it was before the handshake. *)
Theorem connect_then_disconnect_restores (verify : string -> option User)
    (id : string) (token : option string) (st : Server) :
  ~ In id (List.map sid (sockets st)) ->
  socket_disconnect id (connect verify id token st) = st.
Proof.
  intros H.
  assert (Hst : socket_disconnect id st = st).
  { unfold socket_disconnect, with_sockets.
    rewrite (filter_other_ids id _ H). destruct st; reflexivity. }
  destruct (connect_outcome verify id token st H)
    as [E | (t & u & -> & Hv & Hs)].
  - rewrite E. exact Hst.
  - destruct (emitted_connect verify id (Some t) st) as [He Hd].
    apply Server_ext.
    + apply db_connect.
    + unfold socket_disconnect. cbn [sockets with_sockets].
      rewrite Hs, List.filter_app, (filter_other_ids id _ H).
      cbn [List.filter sid]. rewrite String.eqb_refl. simpl.
      apply app_nil_r.
    + exact He.
    + exact Hd.
Qed.

Lemma connect_then_disconnect_restores_witness :
  socket_disconnect "Zq8wLm2Xc7Vb1Nn4Kj6H"
    (connect Seed.verify "Zq8wLm2Xc7Vb1Nn4Kj6H" (Some "jwt-user1")
       Seed.bob_online)
  = Seed.bob_online.
Proof.
  apply (connect_then_disconnect_restores Seed.verify
           "Zq8wLm2Xc7Vb1Nn4Kj6H" (Some "jwt-user1") Seed.bob_online).
  simpl. intros [H | []]. discriminate H.
Defined.

Lemma sockets_broadcast (b : Broadcast) (st : Server) :
  sockets (broadcast b st) = sockets st.
Proof. destruct b; reflexivity. Qed.

Lemma reachable_sessions (chk : TaskRow -> bool) (dp : string -> bool)
    (verify : string -> option User) (st : Server) :
  reachable chk dp verify st ->
  Forall (session_of verify) (sockets st)
  /\ List.NoDup (List.map sid (sockets st)).
Proof.
  induction 1 as [d | a st Hst [IHs IHn] Hok].
  - split; constructor.
  - destruct a as [id token | id | r | b]; simpl in *.
    + apply andb_true_iff in Hok as [Hlen Hfresh].
      apply Nat.eqb_eq in Hlen.
      assert (Hid : ~ In id (List.map sid (sockets st))).
      { intros K. apply List.in_map_iff in K as (s & Hs & Hin).
        apply negb_true_iff in Hfresh.
        assert (E : existsb (fun s => String.eqb (sid s) id) (sockets st)
                    = true).
        { apply List.existsb_exists. exists s. split; [exact Hin|].
          now apply String.eqb_eq. }
        congruence. }
      destruct (connect_outcome verify id token st Hid)
        as [-> | (t & u & -> & Hv & ->)]; [split; assumption|].
      split.
      * apply Forall_app. split; [exact IHs|].
        constructor; [|constructor]. split; [exact Hlen|].
        exists t, u. cbn [sid data_user rooms].
        split; [exact Hv|]. split; [reflexivity|].
        destruct (includes [ id ] _) eqn:E.
        -- apply includes_In in E. destruct E as [E | []].
           split; [left; exact E|].
           constructor; [left; reflexivity | constructor].
        -- split; [right; left; reflexivity|].
           constructor; [left; reflexivity|].
           constructor; [right; reflexivity | constructor].
      * rewrite List.map_app. simpl. apply List.NoDup_app; [exact IHn| |].
        -- constructor; [intros []|constructor].
        -- intros a Ha [<- | []]. now apply Hid.
    + split.
      * clear IHn. induction IHs as [|s l Hs _ IH]; simpl; [constructor|].
        destruct (negb _); [constructor|]; assumption.
      * now apply NoDup_map_filter.
    + destruct (endpoints_emit_nothing chk dp r st) as (Hs & _).
      rewrite Hs. split; assumption.
    + rewrite sockets_broadcast. split; assumption.
Qed.



Lemma in_user_room (verify : string -> option User) (uid : string)
    (s : Socket) :
  session_of verify s ->
  String.length uid <> 15 ->
  in_room (String.append "user_" uid) s = of_user uid s.
Proof.
  intros (Hlen & t & u & _ & Hu & Hin & Hall) Huid.
  unfold in_room, of_user. rewrite Hu.
  destruct (String.eqb (user_id u) uid) eqn:E.
  - apply String.eqb_eq in E. subst uid. now apply includes_In.
  - apply String.eqb_neq in E.
    destruct (includes (rooms s) _) eqn:K; [|reflexivity].
    apply includes_In in K. rewrite List.Forall_forall in Hall.
    destruct (Hall _ K) as [H | H].
    + exfalso. apply (f_equal String.length) in H.
      rewrite length_append, Hlen in H. simpl in H. lia.
    + exfalso. simpl in H. injection H as H. congruence.
Qed.

(** X28: the per-user rooms address by identity.  In every reachable
    state, a message emitted to the room [user_<uid>] goes to exactly
    the sockets whose verified user has that id: to all of them when the
    user is connected several times, to none of another user.  (For a
    [uid] of 15 characters the room name is as long as a socket id, and
    the statement leaves that case out.) *)
Theorem user_room_reaches_that_user (chk : TaskRow -> bool)
    (dp : string -> bool) (verify : string -> option User) (st : Server)
    (uid event : string) (msg : JValue) :
  reachable chk dp verify st ->
  String.length uid <> 15 ->
  recipients (String.append "user_" uid) st
  = List.filter (of_user uid) (sockets st)
  /\ delivered (emit_to (String.append "user_" uid) event msg st)
     = delivered st ++
       List.map (fun s => {| dl_sid := sid s; dl_event := event;
                             dl_message := msg |})
         (List.filter (of_user uid) (sockets st)).
Proof.
  intros Hr Huid.
  assert (E : recipients (String.append "user_" uid) st
              = List.filter (of_user uid) (sockets st)).
  { destruct (reachable_sessions chk dp verify st Hr) as [Hs _].
    unfold recipients.
    induction Hs as [|s l Hs _ IH]; [reflexivity|].
    cbn [List.filter]. rewrite (in_user_room verify uid s Hs Huid), IH.
    reflexivity. }
  split; [exact E|]. unfold emit_to. cbn [delivered]. now rewrite E.
Qed.

Lemma user_room_reaches_that_user_witness :
  let st := connect Seed.verify "Zq8wLm2Xc7Vb1Nn4Kj6H" (Some "jwt-user2")
              (connect Seed.verify "Aa1Bb2Cc3Dd4Ee5Ff6Gg" (Some "jwt-user1")
                 Seed.bob_online) in
  List.map sid (recipients "user_user2" st)
  = [ "k3Jx0aLq9ZtPw2Ym5BnR"; "Zq8wLm2Xc7Vb1Nn4Kj6H" ].
Proof.
  intros st.
  assert (Hr : reachable schema_tasks_check (fun _ => true) Seed.verify st).
  { apply (reachable_step schema_tasks_check (fun _ => true) Seed.verify
             (Connect "Zq8wLm2Xc7Vb1Nn4Kj6H" (Some "jwt-user2")));
      [|reflexivity].
    apply (reachable_step schema_tasks_check (fun _ => true) Seed.verify
             (Connect "Aa1Bb2Cc3Dd4Ee5Ff6Gg" (Some "jwt-user1")));
      [|reflexivity].
    apply (reachable_step schema_tasks_check (fun _ => true) Seed.verify
             (Connect "k3Jx0aLq9ZtPw2Ym5BnR" (Some "jwt-user2"))
             (initial_server Seed.seed_db)); [|reflexivity].
    apply reachable_init. }
  destruct (user_room_reaches_that_user schema_tasks_check (fun _ => true)
              Seed.verify st "user2" "notification_update" JNull Hr)
    as [E _]; [simpl; lia|].
  change (String.append "user_" "user2") with "user_user2" in E.
  rewrite E. reflexivity.
Defined.

End Sessions.

(** ** The token middleware *)
Section Tokens.
Import Backend Api.

Lemma split_space_whole (s : string) :
  no_space s = true -> split_space s = [ s ].
Proof.
  induction s as [|a s IH]; simpl; [reflexivity|].
  intros H. apply andb_true_iff in H as [Ha Hs].
  apply negb_true_iff in Ha. rewrite Ha, (IH Hs). reflexivity.
Qed.

Lemma split_space_first (a b : string) :
  no_space a = true ->
  split_space (String.append a (String " "%char b)) = a :: split_space b.
Proof.
  induction a as [|c a IH]; simpl; [reflexivity|].
  intros H. apply andb_true_iff in H as [Hc Ha].
  apply negb_true_iff in Hc. rewrite Hc, (IH Ha). reflexivity.
Qed.

Lemma append_space_not_empty (a b : string) :
  String.eqb (String.append a (String " "%char b)) "" = false.
Proof. destruct a; reflexivity. Qed.

(** X29: the middleware looks at the second space-separated piece of
    the [Authorization] header and at nothing else.  Whatever the first
    piece is ("Bearer" or any other word, even none) and whatever
    follows a further space, the request passes exactly when
    [jwt.verify] accepts that second piece, with the decoded user in
    [req.user], and is answered 403 "Invalid token" otherwise. *)
Theorem authenticateToken_reads_second_piece
    (verify : string -> option User) (scheme token : string) :
  no_space scheme = true ->
  no_space token = true ->
  token <> "" ->
  let verdict :=
    match verify token with
    | Some user => inr user
    | None => inl {| code := 403; body := message "Invalid token" |}
    end in
  authenticateToken verify
    (Some (String.append scheme (String " "%char token))) = verdict
  /\ forall rest,
       authenticateToken verify
         (Some (String.append scheme
                  (String " "%char
                     (String.append token (String " "%char rest)))))
       = verdict.
Proof.
  intros Hs Ht Hne verdict. subst verdict.
  apply String.eqb_neq in Hne. unfold authenticateToken. split.
  - rewrite append_space_not_empty, (split_space_first _ _ Hs),
      (split_space_whole _ Ht).
    simpl. rewrite Hne. reflexivity.
  - intros rest.
    rewrite append_space_not_empty, (split_space_first _ _ Hs),
      (split_space_first _ _ Ht).
    simpl. rewrite Hne. reflexivity.
Qed.

Lemma authenticateToken_reads_second_piece_witness :
  authenticateToken Seed.verify (Some "Basic jwt-user2") = inr Seed.bob
  /\ authenticateToken Seed.verify (Some "Bearer jwt-user2 and more")
     = inr Seed.bob.
Proof.
  destruct (authenticateToken_reads_second_piece Seed.verify "Basic"
              "jwt-user2" eq_refl eq_refl) as [H1 _];
    [intros K; discriminate K|].
  destruct (authenticateToken_reads_second_piece Seed.verify "Bearer"
              "jwt-user2" eq_refl eq_refl) as [_ H2];
    [intros K; discriminate K|].
  split; [exact H1 | exact (H2 "and more")].
Defined.

(** X30: a request without a usable token never reaches its handler.
    When the [Authorization] header is absent, has no space in it (a
    bare token, or the empty string), ends right after the first space
    or has two spaces in a row there, the answer is 401 "No token
    provided" and the server is unchanged, whatever handler the route
    has and even if the bare token is a valid one. *)
Theorem request_without_token_is_unauthorized
    (verify : string -> option User) (authHeader : option string)
    (handler : User -> M unit) (st : Server) :
  (authHeader = None
   \/ (exists h, authHeader = Some h /\ no_space h = true)
   \/ (exists scheme rest,
         no_space scheme = true
         /\ (authHeader = Some (String.append scheme " ")
             \/ authHeader
                = Some (String.append scheme
                          (String " "%char (String " "%char rest)))))) ->
  run (authenticated verify authHeader handler) st
  = (Some {| code := 401; body := message "No token provided" |}, st).
Proof.
  intros H.
  assert (E : authenticateToken verify authHeader
              = inl {| code := 401; body := message "No token provided" |}).
  { unfold authenticateToken.
    destruct H as [-> | [(h & -> & Hh) | (scheme & rest & Hs & [-> | ->])]].
    - reflexivity.
    - destruct (String.eqb h ""); [reflexivity|].
      rewrite (split_space_whole _ Hh). reflexivity.
    - rewrite append_space_not_empty, (split_space_first _ _ Hs).
      reflexivity.
    - rewrite append_space_not_empty, (split_space_first _ _ Hs).
      reflexivity. }
  unfold authenticated. rewrite E. reflexivity.
Qed.

Lemma request_without_token_is_unauthorized_witness :
  run (authenticated Seed.verify (Some "jwt-user1")
         (fun user =>
            post_task_status schema_tasks_check Seed.env1 user "task1"
              (Some "Completed")))
    Seed.bob_online
  = (Some {| code := 401; body := message "No token provided" |},
     Seed.bob_online).
Proof.
  apply (request_without_token_is_unauthorized Seed.verify
           (Some "jwt-user1")).
  right. left. exists "jwt-user1". split; reflexivity.
Defined.

End Tokens.
